(** * SmartHealthQuote backend assistant: the prompt loop and the step sequencer

    A shallow embedding of [backend-guide/assistant.py] (class
    [BackendAssistant]).  The program is a console questionnaire: it reads
    lines with [input], writes with [print], accumulates answers in the
    dictionary [self.session_data] and dumps that dictionary to
    [backend_assistant_session.json].

    Modelling choices.
    - Python strings are byte strings (UTF-8); [str.strip] and [int] are
      modelled on ASCII input: Unicode white space and digits, and the
      4300-digit limit of [int], are outside the model.
    - The console is a record: the lines still to be read, what has been
      written so far, and an optional pending operator interrupt (SIGINT),
      delivered at most once, at an I/O operation ([print] or [input]).
      [print] raises nothing else; [input] raises nothing else but
      [EOFError]: encoding and pipe errors are outside the model.
    - Python exceptions are an explicit result constructor; [try/except] is a
      combinator on computations.
    - The snapshot file holds the dumped dictionary itself ([json.dump] is
      library code and is not modelled as text), and is written in one
      step: the write fails as a whole or succeeds as a whole. *)

From Stdlib Require Import String Ascii List ZArith Lia Bool Arith.
From Stdlib Require Import DecimalString.
Import ListNotations.
Open Scope list_scope.
Open Scope string_scope.

(* ================================================================== *)
(** ** Python string builtins used by the program *)

Module PyStr.

(** The newline character and the double quote, used when spelling out the
    program's message literals. *)
Definition nl : string := String (ascii_of_nat 10) EmptyString.
Definition dq : string := String (ascii_of_nat 34) EmptyString.

(** [q s] is [s] between double quotes. *)
Definition q (s : string) : string := dq ++ s ++ dq.

(** ASCII whitespace as recognised by [str.strip] and [int]: space, the
    control characters 9..13 and 28..31. *)
Definition is_space (a : ascii) : bool :=
  let n := nat_of_ascii a in
  Nat.eqb n 32 || (Nat.leb 9 n && Nat.leb n 13) || (Nat.leb 28 n && Nat.leb n 31).

Fixpoint lstrip (s : string) : string :=
  match s with
  | EmptyString => EmptyString
  | String a r => if is_space a then lstrip r else s
  end.

Fixpoint rstrip (s : string) : string :=
  match s with
  | EmptyString => EmptyString
  | String a r =>
      match rstrip r with
      | EmptyString => if is_space a then EmptyString else String a EmptyString
      | r' => String a r'
      end
  end.

(** [s.strip()] *)
Definition strip (s : string) : string := rstrip (lstrip s).

(** Truthiness of a string: [if s:] *)
Definition truthy (s : string) : bool :=
  match s with EmptyString => false | _ => true end.

Definition digit_of (a : ascii) : option Z :=
  let n := nat_of_ascii a in
  if Nat.leb 48 n && Nat.leb n 57 then Some (Z.of_nat (n - 48)) else None.

Definition is_underscore (a : ascii) : bool := Nat.eqb (nat_of_ascii a) 95.

(** Digits of a decimal literal after its first digit: single underscores are
    allowed between digits. [acc] is the value read so far. *)
Fixpoint int_digits (acc : Z) (s : string) : option Z :=
  match s with
  | EmptyString => Some acc
  | String a r =>
      match digit_of a with
      | Some d => int_digits (10 * acc + d) r
      | None =>
          if is_underscore a then
            match r with
            | String b r' =>
                match digit_of b with
                | Some d => int_digits (10 * acc + d) r'
                | None => None
                end
            | EmptyString => None
            end
          else None
      end
  end.

Definition int_unsigned (s : string) : option Z :=
  match s with
  | String a r =>
      match digit_of a with
      | Some d => int_digits d r
      | None => None
      end
  | EmptyString => None
  end.

(** [int(s)]: [Some z] for a decimal literal with an optional sign and
    surrounding whitespace, [None] where Python raises [ValueError]. *)
Definition int (s : string) : option Z :=
  match strip s with
  | String a r =>
      if Nat.eqb (nat_of_ascii a) 45 then option_map Z.opp (int_unsigned r)
      else if Nat.eqb (nat_of_ascii a) 43 then int_unsigned r
      else int_unsigned (String a r)
  | EmptyString => None
  end.

(** [needle in s] for strings. *)
Fixpoint contains (needle s : string) : bool :=
  if prefix needle s then true
  else match s with
       | EmptyString => false
       | String _ r => contains needle r
       end.

(** [s.split(" ")[0]]: the text before the first space. *)
Fixpoint split_first (s : string) : string :=
  match s with
  | EmptyString => EmptyString
  | String a r => if Nat.eqb (nat_of_ascii a) 32 then EmptyString
                  else String a (split_first r)
  end.

(** [str(n)] for a non-negative integer. *)
Definition str_nat (n : nat) : string :=
  NilEmpty.string_of_uint (Nat.to_uint n).

Definition str_Z (z : Z) : string :=
  match z with
  | Z0 => "0"
  | Zpos p => str_nat (Pos.to_nat p)
  | Zneg p => "-" ++ str_nat (Pos.to_nat p)
  end.

End PyStr.

(* ================================================================== *)
(** ** Values, dictionaries, exceptions *)

(** The values stored in [session_data]: [None], a string, an integer or a
    nested dictionary.  A dictionary keeps its keys in insertion order, as
    Python's [dict] does. *)
#[local] Set Warnings "-register-all".
Inductive value : Type :=
| VNone
| VStr (s : string)
| VInt (z : Z)
| VDict (items : list (string * value)).

Definition dict := list (string * value).

(** [d[k] = v]: replace in place when the key exists, append otherwise. *)
Fixpoint dict_set (k : string) (v : value) (d : dict) : dict :=
  match d with
  | [] => [(k, v)]
  | (k', v') :: r => if String.eqb k k' then (k, v) :: r
                     else (k', v') :: dict_set k v r
  end.

(** Lookup: [None] when the key is absent. *)
Fixpoint dict_lookup (k : string) (d : dict) : option value :=
  match d with
  | [] => None
  | (k', v') :: r => if String.eqb k k' then Some v' else dict_lookup k r
  end.

(** [d.get(k, default)] *)
Definition dict_get (k : string) (default : value) (d : dict) : value :=
  match dict_lookup k d with Some v => v | None => default end.

(** [list(d.keys())] *)
Definition keys (d : dict) : list string := map fst d.

(** Exceptions.  [KeyboardInterrupt] derives from [BaseException] only, so
    [except Exception] does not catch it; every other exception the program
    can meet is an [Exception], kept with its class name and [str(e)]. *)
Inductive exn : Type :=
| KeyboardInterrupt
| Exc (cls : string) (msg : string).

Definition EOFError : exn := Exc "EOFError" "EOF when reading a line".

(** Outcome of a computation over a state of type [S]. *)
Inductive result (S A : Type) : Type :=
| Normal (a : A) (s : S)
| Raise (e : exn) (s : S).
Arguments Normal {S A} a s.
Arguments Raise {S A} e s.

Definition final {S A} (r : result S A) : S :=
  match r with Normal _ s => s | Raise _ s => s end.

(** A computation with state [S], a result or an exception. *)
Definition comp (S A : Type) : Type := S -> result S A.

Definition ret {S A} (a : A) : comp S A := fun s => Normal a s.

Definition bind {S A B} (m : comp S A) (f : A -> comp S B) : comp S B :=
  fun s => match m s with
           | Normal a s' => f a s'
           | Raise e s' => Raise e s'
           end.

Definition raise {S A} (e : exn) : comp S A := fun s => Raise e s.

(** [try: m  except ... as e: h e]; an exception raised by the handler
    propagates. *)
Definition try_except {S A} (m : comp S A) (h : exn -> comp S A) : comp S A :=
  fun s => match m s with
           | Normal a s' => Normal a s'
           | Raise e s' => h e s'
           end.

Declare Scope comp_scope.
Delimit Scope comp_scope with comp.
Notation "x <- m ;; k" := (bind m (fun x => k))
  (at level 100, m at next level, right associativity) : comp_scope.
Notation "m ;; k" := (bind m (fun _ => k))
  (at level 100, right associativity) : comp_scope.
Open Scope comp_scope.

(* ================================================================== *)
(** ** The console *)

(** What the program writes: a [print]ed line, or the prompt of an [input]
    call. *)
Inductive out_event : Type :=
| Print (s : string)
| Prompt (s : string).

(** [stdin]: the lines the operator will type, end of input after the last.
    [stdout]: everything written so far, oldest first.
    [sigint]: [Some n] when the operator's interrupt arrives at the I/O
    operation after the next [n]; [None] when none is pending. *)
Record console : Type := Console {
  stdin : list string;
  stdout : list out_event;
  sigint : option nat
}.

Definition IO (A : Type) : Type := comp console A.

Definition emit (e : out_event) : IO unit :=
  fun c => Normal tt (Console (stdin c) (stdout c ++ [e])%list (sigint c)).

(** An I/O operation is where a pending interrupt is delivered. *)
Definition signal_check : IO unit :=
  fun c => match sigint c with
           | None => Normal tt c
           | Some 0 => Raise KeyboardInterrupt (Console (stdin c) (stdout c) None)
           | Some (S n) => Normal tt (Console (stdin c) (stdout c) (Some n))
           end.

(** [print(s)] *)
Definition print (s : string) : IO unit := signal_check ;; emit (Print s).

(** [input(prompt)]: writes the prompt, then blocks for a line.  The
    interrupt is delivered while blocked; end of input raises [EOFError]. *)
Definition input (prompt : string) : IO string :=
  emit (Prompt prompt) ;;
  signal_check ;;
  fun c => match stdin c with
           | [] => Raise EOFError c
           | l :: rest => Normal l (Console rest (stdout c) (sigint c))
           end.

(** A run of consecutive [print] calls. *)
Fixpoint print_all (lines : list string) : IO unit :=
  match lines with
  | [] => ret tt
  | l :: r => print l ;; print_all r
  end.

(** [while True: body], for a body that reads at least one line whenever it
    asks for another round ([None]).  The number of rounds is bounded by the
    lines left on [stdin]: with none left the body's read raises. *)
Fixpoint while_rounds {A} (body : IO (option A)) (fuel : nat) : IO A :=
  r <- body ;;
  match r with
  | Some a => ret a
  | None => match fuel with
            | S f => while_rounds body f
            | 0 => raise (Exc "RuntimeError" "while_input: body did not read")
            end
  end.

Definition while_input {A} (body : IO (option A)) : IO A :=
  fun c => while_rounds body (length (stdin c)) c.

(* ================================================================== *)
(** ** [BackendAssistant.ask_question] *)

Import PyStr.

Definition choice_prompt : string := nl ++ "Enter your choice (number): ".
Definition specify_prompt : string := "Please specify: ".
Definition answer_prompt : string := nl ++ "Your answer: ".

(** The numbered option lines: [for i, option in enumerate(options, 1)]. *)
Fixpoint option_lines (i : nat) (options : list string) : list string :=
  match options with
  | [] => []
  | o :: r => ("  " ++ str_nat i ++ ". " ++ o) :: option_lines (S i) r
  end.

(** The lines printed before the loop. [options] is [[]] both for [None] and
    for an empty list: the source only tests [if options:]. *)
Definition ask_header (question : string) (options : list string)
           (allow_custom : bool) : IO unit :=
  print (nl ++ "📋 " ++ question) ;;
  match options with
  | [] => ret tt
  | _ =>
      print (nl ++ "Available options:") ;;
      print_all (option_lines 1 options) ;;
      if allow_custom
      then print ("  " ++ str_nat (length options + 1) ++ ". Other (specify)")
      else ret tt
  end.

(** One round of the [while True] loop: [Some a] is [return a], [None] falls
    through to the next round. *)
Definition ask_round (options : list string) (allow_custom : bool)
  : IO (option string) :=
  match options with
  | _ :: _ =>
      response <- input choice_prompt ;;
      match int (strip response) with
      | Some choice =>
          if ((1 <=? choice) && (choice <=? Z.of_nat (length options)))%Z then
            let selected := nth (Z.to_nat (choice - 1)) options EmptyString in
            print ("✅ Selected: " ++ selected) ;;
            ret (Some selected)
          else if allow_custom && (choice =? Z.of_nat (length options) + 1)%Z then
            custom <- input specify_prompt ;;
            let custom := strip custom in
            if truthy custom then
              print ("✅ Custom choice: " ++ custom) ;;
              ret (Some custom)
            else ret None
          else
            print "❌ Invalid choice. Please try again." ;;
            ret None
      | None =>
          print "❌ Please enter a valid number." ;;
          ret None
      end
  | [] =>
      response <- input answer_prompt ;;
      let response := strip response in
      if truthy response then ret (Some response)
      else print "❌ Please provide an answer." ;; ret None
  end.

Definition ask_loop (options : list string) (allow_custom : bool) : IO string :=
  while_input (ask_round options allow_custom).

Definition ask_question (question : string) (options : list string)
           (allow_custom : bool) : IO string :=
  ask_header question options allow_custom ;;
  ask_loop options allow_custom.

(* ================================================================== *)
(** ** The assistant object and its environment *)

(** [session_data] is [self.session_data]; [console_of] the terminal;
    [disk] the content of [backend_assistant_session.json] ([None]: not
    written); [write_error]: [Some msg] when opening the file for writing
    fails with an [OSError] whose text is [msg].  ([conversation_history] is
    initialised to an empty list and never read or written afterwards; it is
    left out.) *)
Record state : Type := State {
  session_data : dict;
  console_of : console;
  disk : option dict;
  write_error : option string
}.

Definition M (A : Type) : Type := comp state A.

Definition with_console (st : state) (c : console) : state :=
  State (session_data st) c (disk st) (write_error st).

(** Run a console computation inside the assistant. *)
Definition lift {A} (m : IO A) : M A :=
  fun st => match m (console_of st) with
            | Normal a c => Normal a (with_console st c)
            | Raise e c => Raise e (with_console st c)
            end.

(** [self.session_data[k] = v] *)
Definition set_item (k : string) (v : value) : M unit :=
  fun st => Normal tt (State (dict_set k v (session_data st)) (console_of st)
                             (disk st) (write_error st)).

(** [self.session_data.get(k, default)] *)
Definition get_item (k : string) (default : value) : M value :=
  fun st => Normal (dict_get k default (session_data st)) st.

(** [BackendAssistant.__init__] *)
Definition init_session_data : dict :=
  [ ("frontend_tech_stack", VNone);
    ("backend_framework", VNone);
    ("llm_requirements", VNone);
    ("data_format", VNone);
    ("api_design", VNone);
    ("auth_requirements", VNone);
    ("deployment_target", VNone);
    ("communication_method", VNone);
    ("current_step", VInt 1) ].

(** A fresh assistant in a given environment. *)
Definition init (inp : list string) (sig : option nat) (werr : option string)
  : state :=
  State init_session_data (Console inp [] sig) None werr.

(** [s * n] *)
Fixpoint str_mul (s : string) (n : nat) : string :=
  match n with 0 => EmptyString | S k => s ++ str_mul s k end.

(** [display_welcome] *)
Definition display_welcome : IO unit :=
  print (nl ++ str_mul "=" 70) ;;
  print "🏥 SmartHealthQuote Backend Development Assistant" ;;
  print (str_mul "=" 70) ;;
  print_all
    [ nl ++ "Welcome! I'm here to guide you through building a robust backend";
      "for your health insurance quote system. Let's build something amazing!";
      nl ++ "I'll ask you questions one at a time to understand your needs";
      "and provide tailored guidance, code snippets, and best practices." ] ;;
  print (nl ++ str_mul "-" 70).

(* ------------------------------------------------------------------ *)
(** *** Advice printers *)

(** The [benefits] table of [explain_framework_benefits]. *)
Definition benefits : list (string * list string) :=
  [ ("FastAPI",
      [ "🚀 High performance (async/await)";
        "📚 Automatic API documentation";
        "🔒 Built-in data validation";
        "🐍 Great for ML/LLM integration" ]);
    ("Flask",
      [ "⚡ Lightweight and flexible";
        "📖 Extensive documentation";
        "🔧 Easy to customize";
        "👨‍💻 Great for rapid prototyping" ]);
    ("Node.js",
      [ "🌐 JavaScript full-stack";
        "⚡ Fast I/O operations";
        "📦 Huge npm ecosystem";
        "🔄 Easy frontend integration" ]);
    ("Django",
      [ "🏗️ Full-featured framework";
        "👑 Built-in admin interface";
        "🗄️ Powerful ORM";
        "🔐 Strong security features" ]) ].

Fixpoint assoc {A} (k : string) (l : list (string * A)) : option A :=
  match l with
  | [] => None
  | (k', v) :: r => if String.eqb k k' then Some v else assoc k r
  end.

Definition explain_framework_benefits (framework : string) : IO unit :=
  let framework_key := split_first framework in
  match assoc framework_key benefits with
  | Some bs =>
      print (nl ++ "✅ Great choice! " ++ framework_key ++ " benefits:") ;;
      print_all (map (fun benefit => "   " ++ benefit) bs)
  | None => ret tt
  end.

Definition explain_rag_implementation : IO unit :=
  print_all
    [ nl ++ "🔧 RAG Implementation Overview:";
      "1. **Data Preparation**:";
      "   • Collect insurance policy documents";
      "   • Chunk text into semantic segments";
      "   • Generate embeddings for each chunk";
      "   • Store in vector database";
      nl ++ "2. **Query Processing**:";
      "   • Convert user input to embeddings";
      "   • Search vector DB for relevant policies";
      "   • Rank results by similarity";
      nl ++ "3. **Response Generation**:";
      "   • Combine user query + retrieved context";
      "   • Send to LLM for quote generation";
      "   • Format response for frontend" ].

(** The three example payloads of [show_data_structure_example], line by
    line. *)
Definition example_simple : string :=
  String.concat nl
    [ EmptyString;
     "{";
     "  " ++ q "plan_id" ++ ": " ++ q "basic_health_001" ++ ",";
     "  " ++ q "name" ++ ": " ++ q "Basic Health Plan" ++ ",";
     "  " ++ q "premium_range" ++ ": {";
     "    " ++ q "min" ++ ": 200,";
     "    " ++ q "max" ++ ": 400";
     "  },";
     "  " ++ q "coverage_type" ++ ": " ++ q "basic" ++ ",";
     "  " ++ q "deductible" ++ ": 1500";
     "}" ].

Definition example_moderate : string :=
  String.concat nl
    [ EmptyString;
     "{";
     "  " ++ q "plan_id" ++ ": " ++ q "comprehensive_001" ++ ",";
     "  " ++ q "name" ++ ": " ++ q "Comprehensive Health Plus" ++ ",";
     "  " ++ q "tiers" ++ ": [" ++ q "bronze" ++ ", " ++ q "silver" ++ ", " ++ q "gold" ++ "],";
     "  " ++ q "coverage" ++ ": {";
     "    " ++ q "medical" ++ ": true,";
     "    " ++ q "dental" ++ ": true,";
     "    " ++ q "vision" ++ ": false";
     "  },";
     "  " ++ q "pricing" ++ ": {";
     "    " ++ q "age_groups" ++ ": {";
     "      " ++ q "18-30" ++ ": 285,";
     "      " ++ q "31-50" ++ ": 385,";
     "      " ++ q "51+" ++ ": 485";
     "    }";
     "  }";
     "}" ].

Definition example_complex : string :=
  String.concat nl
    [ EmptyString;
     "{";
     "  " ++ q "plan_id" ++ ": " ++ q "premium_underwritten_001" ++ ",";
     "  " ++ q "underwriting_factors" ++ ": {";
     "    " ++ q "age" ++ ": {" ++ q "weight" ++ ": 0.3, " ++ q "bands" ++ ": [...]},";
     "    " ++ q "medical_history" ++ ": {" ++ q "weight" ++ ": 0.4, " ++ q "conditions" ++ ": [...]},";
     "    " ++ q "lifestyle" ++ ": {" ++ q "weight" ++ ": 0.2, " ++ q "factors" ++ ": [...]}";
     "  },";
     "  " ++ q "calculation_engine" ++ ": {";
     "    " ++ q "base_premium" ++ ": 300,";
     "    " ++ q "risk_multipliers" ++ ": {...},";
     "    " ++ q "discounts" ++ ": {...}";
     "  }";
     "}" ].

Definition show_data_structure_example (complexity : string) : IO unit :=
  print (nl ++ "📊 Example Data Structure (" ++ complexity ++ "):") ;;
  if contains "Simple" complexity then print example_simple
  else if contains "Moderate" complexity then print example_moderate
  else print example_complex.

Definition api_example : string :=
  String.concat nl
    [ EmptyString;
     "POST /api/quote";
     "{";
     "  " ++ q "age" ++ ": 35,";
     "  " ++ q "medical_history" ++ ": " ++ q "No pre-existing conditions" ++ ",";
     "  " ++ q "lifestyle" ++ ": " ++ q "Moderately active" ++ ",";
     "  " ++ q "coverage_need" ++ ": " ++ q "Comprehensive coverage";
     "}";
     EmptyString;
     "Response:";
     "{";
     "  " ++ q "quote_id" ++ ": " ++ q "q123456" ++ ",";
     "  " ++ q "plan" ++ ": {";
     "    " ++ q "name" ++ ": " ++ q "Comprehensive Health Plus" ++ ",";
     "    " ++ q "monthly_premium" ++ ": 285,";
     "    " ++ q "deductible" ++ ": 1500,";
     "    " ++ q "out_of_pocket_max" ++ ": 5000";
     "  },";
     "  " ++ q "benefits" ++ ": [...],";
     "  " ++ q "provider" ++ ": " ++ q "HealthCorp";
     "}" ].

Definition show_api_examples : IO unit :=
  print (nl ++ "🔌 API Endpoint Examples:") ;;
  print api_example.

Definition provide_security_recommendations (privacy_level : string) : IO unit :=
  print (nl ++ "🔐 Security Recommendations (" ++ privacy_level ++ " privacy):") ;;
  if contains "High" privacy_level then
    print_all
      [ "   • HIPAA compliance required";
        "   • End-to-end encryption";
        "   • Audit logging";
        "   • Data retention policies";
        "   • Regular security assessments" ]
  else if contains "Medium" privacy_level then
    print_all
      [ "   • HTTPS everywhere";
        "   • Data encryption at rest";
        "   • Input validation";
        "   • Rate limiting";
        "   • Basic audit logging" ]
  else
    print_all
      [ "   • HTTPS for API calls";
        "   • Basic input validation";
        "   • CORS configuration";
        "   • API rate limiting" ].

Definition provide_deployment_guidance (deployment scale : string) : IO unit :=
  print (nl ++ "🚀 Deployment Guidance (" ++ deployment ++ ", " ++ scale
            ++ " scale):") ;;
  if contains "Local" deployment then
    print_all
      [ "   • Use Docker Compose for multi-service setup";
        "   • Include database, API, and vector DB services";
        "   • Hot reload for development" ]
  else if contains "Cloud" deployment then
    print_all
      [ "   • Consider containerization (Docker)";
        "   • Use managed databases";
        "   • Implement auto-scaling";
        "   • Set up monitoring and logging" ]
  else if contains "PaaS" deployment then
    print_all
      [ "   • Simple git-based deployment";
        "   • Environment variable configuration";
        "   • Built-in scaling options" ]
  else if contains "Serverless" deployment then
    print_all
      [ "   • Function-based architecture";
        "   • Cold start considerations for LLM";
        "   • Use managed vector databases" ]
  else ret tt.

(* ------------------------------------------------------------------ *)
(** *** The eight steps *)

Definition step_1_frontend_analysis : M bool :=
  lift (print_all
    [ nl ++ "🔍 STEP 1: Frontend Analysis";
      "Let's understand your current frontend setup.";
      nl ++ "💡 I can see you have a React frontend with:";
      "  • React + Vite setup";
      "  • Tailwind CSS for styling";
      "  • Chat interface for user interaction";
      "  • Form handling with react-hook-form";
      "  • Routing with react-router" ]) ;;
  familiarity <- lift (ask_question
    "How familiar are you with the current frontend data flow?"
    [ "Very familiar - I built it";
      "Somewhat familiar - I've reviewed the code";
      "Not familiar - I'm new to this project" ] true) ;;
  set_item "frontend_tech_stack"
    (VDict [ ("framework", VStr "React + Vite");
             ("styling", VStr "Tailwind CSS");
             ("familiarity", VStr familiarity) ]) ;;
  lift (print_all
    [ nl ++ "📊 Current Frontend Integration Points:";
      "  • Chat interface collects: age, medical history, lifestyle, coverage needs";
      "  • Expected API call in chat.jsx: getQuotation() function";
      "  • Quote display component ready for API response";
      "  • Form data structure: {age, medicalHistory, lifestyle, coverageNeed}" ]) ;;
  ret true.

Definition step_2_backend_framework : M bool :=
  lift (print_all
    [ nl ++ "🔧 STEP 2: Backend Framework Selection";
      "Let's choose the best backend framework for your needs." ]) ;;
  framework_choice <- lift (ask_question
    "Which backend framework would you prefer?"
    [ "FastAPI (Python) - High performance, automatic API docs";
      "Flask (Python) - Lightweight, flexible, great for MVPs";
      "Node.js (Express) - JavaScript full-stack, familiar syntax";
      "Django (Python) - Full-featured, built-in admin, ORM" ] true) ;;
  set_item "backend_framework" (VStr framework_choice) ;;
  lift (explain_framework_benefits framework_choice) ;;
  experience <- lift (ask_question
    "What's your experience level with this framework?"
    [ "Expert - I've built production applications";
      "Intermediate - I've built some projects";
      "Beginner - I'm learning or new to it" ] true) ;;
  set_item "backend_framework_experience" (VStr experience) ;;
  ret true.

Definition step_3_llm_integration : M bool :=
  lift (print_all
    [ nl ++ "🤖 STEP 3: LLM and RAG Pipeline Planning";
      "Let's design your Language Model integration.";
      nl ++ "💡 RAG (Retrieval-Augmented Generation) combines:";
      "  • Vector database for insurance policy data";
      "  • Semantic search for relevant policies";
      "  • LLM for generating personalized quotes" ]) ;;
  llm_choice <- lift (ask_question
    "Which LLM approach interests you most?"
    [ "Mistral 7B (Local) - Privacy-focused, no API costs";
      "OpenAI GPT (API) - Powerful, easy to integrate";
      "Anthropic Claude (API) - Strong reasoning, safety-focused";
      "Hugging Face Models - Open source, customizable" ] true) ;;
  vector_choice <- lift (ask_question
    "Which vector database would you prefer?"
    [ "Faiss (Facebook) - Fast, local, good for prototypes";
      "Pinecone - Managed, scalable, easy to use";
      "Weaviate - Open source, GraphQL API";
      "Chroma - Simple, local-first, Python-friendly" ] true) ;;
  set_item "llm_requirements"
    (VDict [ ("llm_choice", VStr llm_choice);
             ("vector_db", VStr vector_choice) ]) ;;
  lift explain_rag_implementation ;;
  ret true.

Definition step_4_data_structure : M bool :=
  lift (print_all
    [ nl ++ "📊 STEP 4: Insurance Data Structure";
      "Let's design your insurance data model.";
      nl ++ "💡 Your system needs to handle:";
      "  • Insurance policies and plans";
      "  • Coverage options and limits";
      "  • Premium calculations";
      "  • Provider information";
      "  • User health profiles" ]) ;;
  data_source <- lift (ask_question
    "What's your primary data source for insurance information?"
    [ "Insurance company APIs - Real-time policy data";
      "Static datasets - CSV/JSON files with policy info";
      "Manual curation - Build your own policy database";
      "Third-party services - Insurance aggregator APIs" ] true) ;;
  complexity <- lift (ask_question
    "How complex should your initial data model be?"
    [ "Simple - Basic plans with premium ranges";
      "Moderate - Multiple coverage types and tiers";
      "Complex - Detailed underwriting and calculations" ] true) ;;
  set_item "data_format"
    (VDict [ ("source", VStr data_source);
             ("complexity", VStr complexity) ]) ;;
  lift (show_data_structure_example complexity) ;;
  ret true.

Definition step_5_api_design : M bool :=
  lift (print_all
    [ nl ++ "🔌 STEP 5: API Design";
      "Let's design your API endpoints.";
      nl ++ "💡 Based on your frontend, we need these APIs:";
      "  • POST /api/quote - Generate insurance quote";
      "  • GET /api/providers - List insurance providers";
      "  • GET /api/plans - Get available plans";
      "  • POST /api/chat - Handle chat interactions" ]) ;;
  api_style <- lift (ask_question
    "What API style do you prefer?"
    [ "REST - Simple, widely supported";
      "GraphQL - Flexible queries, single endpoint";
      "FastAPI/OpenAPI - Auto-generated docs, type safety" ] true) ;;
  realtime <- lift (ask_question
    "Do you need real-time features?"
    [ "Yes - WebSocket for live chat";
      "Yes - Server-sent events for updates";
      "No - Standard HTTP requests are fine" ] true) ;;
  set_item "api_design"
    (VDict [ ("style", VStr api_style);
             ("realtime", VStr realtime) ]) ;;
  lift show_api_examples ;;
  ret true.

Definition step_6_authentication_security : M bool :=
  lift (print_all
    [ nl ++ "🔐 STEP 6: Authentication & Security";
      "Let's secure your application." ]) ;;
  auth_choice <- lift (ask_question
    "What authentication approach do you need?"
    [ "None - Anonymous quotes (simplest start)";
      "Basic - Email/password registration";
      "OAuth - Google/Facebook login";
      "Enterprise - SAML/LDAP integration" ] true) ;;
  privacy_level <- lift (ask_question
    "How sensitive is the health data you'll handle?"
    [ "Low - General health questions only";
      "Medium - Some medical history";
      "High - Detailed medical records (HIPAA compliance needed)" ] true) ;;
  set_item "auth_requirements"
    (VDict [ ("auth_type", VStr auth_choice);
             ("privacy_level", VStr privacy_level) ]) ;;
  lift (provide_security_recommendations privacy_level) ;;
  ret true.

Definition step_7_deployment_scalability : M bool :=
  lift (print_all
    [ nl ++ "🚀 STEP 7: Deployment & Scalability";
      "Let's plan your deployment strategy." ]) ;;
  deployment <- lift (ask_question
    "Where would you like to deploy?"
    [ "Local development - Docker Compose";
      "Cloud platform - AWS/GCP/Azure";
      "PaaS solution - Heroku/Railway/Render";
      "Serverless - AWS Lambda/Vercel Functions" ] true) ;;
  scale <- lift (ask_question
    "What's your expected initial scale?"
    [ "Small - <100 users/day";
      "Medium - 100-1000 users/day";
      "Large - 1000+ users/day" ] true) ;;
  set_item "deployment_target"
    (VDict [ ("platform", VStr deployment);
             ("scale", VStr scale) ]) ;;
  lift (provide_deployment_guidance deployment scale) ;;
  ret true.

Definition step_8_communication_method : M bool :=
  lift (print_all
    [ nl ++ "🔄 STEP 8: Frontend-Backend Communication";
      "Let's ensure smooth integration with your React frontend.";
      nl ++ "💡 Your frontend currently expects:";
      "  • getQuotation() function in chat.jsx";
      "  • JSON response with quote data";
      "  • Error handling for failed requests" ]) ;;
  communication <- lift (ask_question
    "How should we handle API communication?"
    [ "Axios (already used) - HTTP client library";
      "Fetch API - Native browser API";
      "TanStack Query - Advanced caching and sync";
      "Custom wrapper - Tailored to your needs" ] true) ;;
  error_handling <- lift (ask_question
    "How comprehensive should error handling be?"
    [ "Basic - Simple try/catch blocks";
      "Intermediate - User-friendly error messages";
      "Advanced - Retry logic, fallbacks, monitoring" ] true) ;;
  set_item "communication_method"
    (VDict [ ("client", VStr communication);
             ("error_handling", VStr error_handling) ]) ;;
  ret true.

(* ------------------------------------------------------------------ *)
(** *** The plan renderer *)

(** [repr(v)]; the quoting of a string ignores Python's escapes. *)
Fixpoint py_repr (v : value) : string :=
  match v with
  | VNone => "None"
  | VStr s => "'" ++ s ++ "'"
  | VInt z => str_Z z
  | VDict items =>
      "{" ++ (fix go (l : list (string * value)) : string :=
                match l with
                | [] => EmptyString
                | (k, x) :: r =>
                    "'" ++ k ++ "': " ++ py_repr x
                    ++ match r with [] => EmptyString | _ => ", " ++ go r end
                end) items ++ "}"
  end.

(** [str(v)], as an f-string formats a value. *)
Definition py_str (v : value) : string :=
  match v with VStr s => s | _ => py_repr v end.

Definition type_name (v : value) : string :=
  match v with
  | VNone => "NoneType" | VStr _ => "str" | VInt _ => "int" | VDict _ => "dict"
  end.

(** [info.get(k, default)] on a value that should be a dictionary; any other
    value has no [get] attribute. *)
Definition attr_get (info : value) (k : string) (default : value) : M value :=
  match info with
  | VDict d => ret (dict_get k default d)
  | _ => raise (Exc "AttributeError"
                    ("'" ++ type_name info ++ "' object has no attribute 'get'"))
  end.

(** [needle in v]: substring test on a string, key test on a dictionary,
    [TypeError] otherwise. *)
Definition py_in (needle : string) (v : value) : M bool :=
  match v with
  | VStr s => ret (contains needle s)
  | VDict d => ret (existsb (String.eqb needle) (keys d))
  | _ => raise (Exc "TypeError"
                    ("argument of type '" ++ type_name v ++ "' is not iterable"))
  end.

Definition not_specified : value := VStr "Not specified".

Definition fastapi_lines : list string :=
  [ nl ++ "1. Set up FastAPI project:";
    "   pip install fastapi uvicorn";
    "   Check: backend-guide/frameworks/fastapi/" ].
Definition flask_lines : list string :=
  [ nl ++ "1. Set up Flask project:";
    "   pip install flask flask-cors";
    "   Check: backend-guide/frameworks/flask/" ].
Definition nodejs_lines : list string :=
  [ nl ++ "1. Set up Node.js project:";
    "   npm init && npm install express cors";
    "   Check: backend-guide/frameworks/nodejs/" ].
Definition generic_next_lines : list string :=
  [ nl ++ "2. Update frontend integration:";
    "   • Replace getQuotation() placeholder in src/pages/chat.jsx";
    "   • Add proper API endpoints";
    "   • Implement error handling";
    nl ++ "3. Explore detailed guides:";
    "   • Architecture diagrams: backend-guide/architecture/";
    "   • Code templates: backend-guide/templates/";
    "   • Deployment guides: backend-guide/deployment/";
    nl ++ "4. Run the assistant again anytime:";
    "   python backend-guide/assistant.py" ].

(** [generate_next_steps] *)
Definition generate_next_steps : M unit :=
  lift (print (nl ++ "🚀 NEXT STEPS:")) ;;
  framework <- get_item "backend_framework" (VStr EmptyString) ;;
  is_fastapi <- py_in "FastAPI" framework ;;
  (if is_fastapi then lift (print_all fastapi_lines)
   else
     is_flask <- py_in "Flask" framework ;;
     if is_flask then lift (print_all flask_lines)
     else
       is_node <- py_in "Node.js" framework ;;
       if is_node then lift (print_all nodejs_lines)
       else ret tt) ;;
  lift (print_all generic_next_lines).

(** One numbered entry of the plan: two values read from a nested
    dictionary. *)
Definition plan_entry (field : string) (label1 key1 label2 key2 : string)
  : M unit :=
  info <- get_item field (VDict []) ;;
  v1 <- attr_get info key1 not_specified ;;
  lift (print (label1 ++ py_str v1)) ;;
  v2 <- attr_get info key2 not_specified ;;
  lift (print (label2 ++ py_str v2)).

(** [generate_implementation_plan] *)
Definition generate_implementation_plan : M unit :=
  lift (print (nl ++ "📋 IMPLEMENTATION PLAN")) ;;
  lift (print (str_mul "=" 50)) ;;
  lift (print (nl ++ "🎯 Your Customized Backend Implementation Plan:")) ;;
  framework <- get_item "backend_framework" not_specified ;;
  lift (print (nl ++ "1. **Backend Framework**: " ++ py_str framework)) ;;
  plan_entry "llm_requirements"
    (nl ++ "2. **LLM Integration**: ") "llm_choice"
    "   **Vector DB**: " "vector_db" ;;
  plan_entry "data_format"
    (nl ++ "3. **Data Source**: ") "source"
    "   **Complexity**: " "complexity" ;;
  plan_entry "api_design"
    (nl ++ "4. **API Style**: ") "style"
    "   **Real-time**: " "realtime" ;;
  plan_entry "auth_requirements"
    (nl ++ "5. **Authentication**: ") "auth_type"
    "   **Privacy Level**: " "privacy_level" ;;
  plan_entry "deployment_target"
    (nl ++ "6. **Deployment**: ") "platform"
    "   **Scale**: " "scale" ;;
  lift (print (nl ++ str_mul "=" 50)) ;;
  lift (print "✅ Plan generated! Check the framework-specific guides for detailed implementation.") ;;
  generate_next_steps.

(* ------------------------------------------------------------------ *)
(** *** The session persister *)

(** [open(..., "w")] followed by [json.dump]: fails as a whole when the file
    cannot be opened. *)
Definition dump_session : M unit :=
  fun st => match write_error st with
            | Some msg => Raise (Exc "OSError" msg) st
            | None => Normal tt (State (session_data st) (console_of st)
                                       (Some (session_data st)) (write_error st))
            end.

(** [save_session] *)
Definition save_session : M unit :=
  try_except
    (dump_session ;;
     lift (print (nl ++ "💾 Session saved to backend_assistant_session.json")))
    (fun e => match e with
              | Exc _ msg => lift (print ("⚠️ Could not save session: " ++ msg))
              | KeyboardInterrupt => raise KeyboardInterrupt
              end).

(* ------------------------------------------------------------------ *)
(** *** The step sequencer *)

(** How one round of the [for] loop ends: [Next] goes on with the loop,
    [Return] is a [return] out of [run]. *)
Inductive ctl : Type := Next | Return.

Definition continue_question : string := "Ready to continue to the next step?".
Definition continue_options : list string :=
  [ "Yes, continue";
    "No, let me review this step" ].

(** The three ways a round leaves [run] early: the operator declines to
    continue, an interrupt is caught, an exception is caught. *)
Definition pause_and_save : M ctl :=
  lift (print (nl ++ "⏸️ Feel free to review the information above.")) ;;
  lift (print "Run the assistant again when you're ready to continue!") ;;
  save_session ;;
  ret Return.

Definition on_interrupt : M ctl :=
  lift (print (nl ++ nl ++ "⏸️ Assistant paused. Your progress has been saved.")) ;;
  save_session ;;
  ret Return.

Definition on_error (i : nat) (msg : string) : M ctl :=
  lift (print (nl ++ "❌ Error in step " ++ str_nat i ++ ": " ++ msg)) ;;
  lift (print "Don't worry, you can restart the assistant anytime!") ;;
  ret Return.

(** The [try] block of a round of [for i, step in enumerate(steps, 1)];
    [n] is [len(steps)]. *)
Definition iteration_body (n i : nat) (step : M bool) : M ctl :=
  step ;;
  set_item "current_step" (VInt (Z.of_nat (i + 1))) ;;
  if Nat.ltb i n then
    answer <- lift (ask_question continue_question continue_options true) ;;
    if contains "No" answer then pause_and_save else ret Next
  else ret Next.

(** A round: the [try] block with its two handlers. *)
Definition iteration (n i : nat) (step : M bool) : M ctl :=
  try_except (iteration_body n i step)
    (fun e => match e with
              | KeyboardInterrupt => on_interrupt
              | Exc _ msg => on_error i msg
              end).

Fixpoint run_loop (n i : nat) (steps : list (M bool)) : M ctl :=
  match steps with
  | [] => ret Next
  | step :: rest =>
      c <- iteration n i step ;;
      match c with
      | Return => ret Return
      | Next => run_loop n (S i) rest
      end
  end.

(** The local list [steps] of [run]. *)
Definition steps : list (M bool) :=
  [ step_1_frontend_analysis;
    step_2_backend_framework;
    step_3_llm_integration;
    step_4_data_structure;
    step_5_api_design;
    step_6_authentication_security;
    step_7_deployment_scalability;
    step_8_communication_method ].

(** What follows the loop when it was not left by a [return]. *)
Definition finish : M unit :=
  generate_implementation_plan ;;
  save_session ;;
  lift (print (nl ++ "🎉 Congratulations! You have a complete backend development plan.")) ;;
  lift (print "Check the framework-specific guides in backend-guide/frameworks/ to start coding!").

(** The outer handler of [run]. *)
Definition farewell : M unit :=
  lift (print (nl ++ nl ++ "👋 Thanks for using the Backend Development Assistant!")) ;;
  lift (print "Run it again anytime: python backend-guide/assistant.py").

(** The outer [try] block of [run], for a given list of steps. *)
Definition run_body (steps : list (M bool)) : M unit :=
  lift display_welcome ;;
  c <- run_loop (length steps) 1 steps ;;
  match c with
  | Return => ret tt
  | Next => finish
  end.

(** [run]: the outer block with its [except KeyboardInterrupt]. *)
Definition run_steps (steps : list (M bool)) : M unit :=
  try_except (run_body steps)
    (fun e => match e with
              | KeyboardInterrupt => farewell
              | Exc _ _ => raise e
              end).

(** [BackendAssistant.run] *)
Definition run : M unit := run_steps steps.

(** [main]: a fresh assistant, then [run]. *)
Definition main (inp : list string) (sig : option nat) (werr : option string)
  : result state unit :=
  run (init inp sig werr).

(* ================================================================== *)
(** ** Vocabulary of the statements *)

(** The lines [ask_question] prints before its loop. *)
Definition header_lines (question : string) (options : list string)
           (allow_custom : bool) : list string :=
  (nl ++ "📋 " ++ question) ::
  match options with
  | [] => []
  | _ => (nl ++ "Available options:") ::
         app (option_lines 1 options)
             (if allow_custom
              then ["  " ++ str_nat (length options + 1) ++ ". Other (specify)"]
              else [])
  end.

(** The prompts of the [input] calls in a transcript, in order. *)
Fixpoint prompts (out : list out_event) : list string :=
  match out with
  | [] => []
  | Prompt p :: r => p :: prompts r
  | Print _ :: r => prompts r
  end.

(** The [print]ed lines of a transcript, in order. *)
Fixpoint printed (out : list out_event) : list string :=
  match out with
  | [] => []
  | Print s :: r => s :: printed r
  | Prompt _ :: r => printed r
  end.

(** A console on which no interrupt is pending, after writing [evs]. *)
Definition wrote (c : console) (evs : list out_event) : console :=
  Console (stdin c) (stdout c ++ evs)%list None.

(** A body of [while_input] reads a line in every round that asks for
    another. *)
Definition reads_each_round {A} (body : IO (option A)) : Prop :=
  forall c c', body c = Normal None c' ->
               length (stdin c') < length (stdin c).

(** The state left by [save_session], preceded by the printing of [before],
    on a console without pending interrupt: the file holds the record, or a
    warning is printed and the file is unchanged. *)
Definition saved_state (st : state) (before : list string) : state :=
  match write_error st with
  | None =>
      State (session_data st)
            (wrote (console_of st)
               (map Print (app before [nl ++ "💾 Session saved to backend_assistant_session.json"])))
            (Some (session_data st)) None
  | Some msg =>
      State (session_data st)
            (wrote (console_of st)
               (map Print (app before ["⚠️ Could not save session: " ++ msg])))
            (disk st) (Some msg)
  end.

(** The state after printing [lines] on a console without pending
    interrupt. *)
Definition printed_state (st : state) (lines : list string) : state :=
  with_console st (wrote (console_of st) (map Print lines)).

Definition exp_key : string := "backend_framework_experience".

(** The fields each step writes. *)
Definition owned (j : nat) : list string :=
  match j with
  | 1 => ["frontend_tech_stack"]
  | 2 => ["backend_framework"; exp_key]
  | 3 => ["llm_requirements"]
  | 4 => ["data_format"]
  | 5 => ["api_design"]
  | 6 => ["auth_requirements"]
  | 7 => ["deployment_target"]
  | 8 => ["communication_method"]
  | _ => []
  end.

(** A field holds an answer: the key is present and its value is not
    [None]. *)
Definition recorded (k : string) (d : dict) : Prop :=
  exists v, dict_lookup k d = Some v /\ v <> VNone.

(** A field is null: [d.get(k)] is [None]. *)
Definition blank (k : string) (d : dict) : Prop :=
  dict_get k VNone d = VNone.

(** The session record with its nine constructor keys in order, followed by
    the keys added later. *)
Definition layout (a1 a2 a3 a4 a5 a6 a7 a8 : value) (c : nat) (ex : dict)
  : dict :=
  ([ ("frontend_tech_stack", a1);
     ("backend_framework", a2);
     ("llm_requirements", a3);
     ("data_format", a4);
     ("api_design", a5);
     ("auth_requirements", a6);
     ("deployment_target", a7);
     ("communication_method", a8);
     ("current_step", VInt (Z.of_nat c)) ] ++ ex)%list.

Definition pair_of (k1 k2 : string) (a : value) : Prop :=
  exists x y, a = VDict [ (k1, VStr x); (k2, VStr y) ].

(** The value step [j] stores in the constructor field it owns. *)
Definition form (j : nat) (a : value) : Prop :=
  match j with
  | 1 => exists s, a = VDict [ ("framework", VStr "React + Vite");
                               ("styling", VStr "Tailwind CSS");
                               ("familiarity", VStr s) ]
  | 2 => exists s, a = VStr s
  | 3 => pair_of "llm_choice" "vector_db" a
  | 4 => pair_of "source" "complexity" a
  | 5 => pair_of "style" "realtime" a
  | 6 => pair_of "auth_type" "privacy_level" a
  | 7 => pair_of "platform" "scale" a
  | 8 => pair_of "client" "error_handling" a
  | _ => False
  end.

(** The field of step [j] when [done] steps have completed; with [slack]
    1 the step after those may have written its field already. *)
Definition slot (done slack j : nat) (a : value) : Prop :=
  (a = VNone \/ form j a)
  /\ (j <= done -> form j a)
  /\ (done + slack < j -> a = VNone).

(** The keys after the constructor's: only step 2 adds one. *)
Definition extra (done slack : nat) (ex : dict) : Prop :=
  (ex = [] \/ exists e, ex = [ (exp_key, VStr e) ])
  /\ (2 <= done -> ex <> [])
  /\ (done + slack < 2 -> ex = []).

(** The session record when [done] steps have completed and [current_step]
    is [c]. *)
Definition shape (done slack c : nat) (d : dict) : Prop :=
  exists a1 a2 a3 a4 a5 a6 a7 a8 ex,
    d = layout a1 a2 a3 a4 a5 a6 a7 a8 c ex
    /\ slot done slack 1 a1 /\ slot done slack 2 a2 /\ slot done slack 3 a3
    /\ slot done slack 4 a4 /\ slot done slack 5 a5 /\ slot done slack 6 a6
    /\ slot done slack 7 a7 /\ slot done slack 8 a8
    /\ extra done slack ex.

(** At the head of round [done + 1], nothing written to the file yet. *)
Definition at_head (done : nat) (st : state) : Prop :=
  shape done 0 (S done) (session_data st) /\ disk st = None.

(** Step [done + 1] has returned, [current_step] not yet advanced. *)
Definition step_returned (done : nat) (st : state) : Prop :=
  shape (S done) 0 (S done) (session_data st) /\ disk st = None.

(** A record that may be found in the snapshot file. *)
Definition snapshot_ok (d : dict) : Prop :=
  exists done, done <= 8 /\ shape done 1 (S done) d.

(** What holds of the assistant at every point of a run: the record is a
    possible snapshot, and the file, if written, holds that record. *)
Definition saveable (st : state) : Prop :=
  snapshot_ok (session_data st)
  /\ (disk st = None \/ disk st = Some (session_data st)).

(** Partial-correctness triples with an exceptional postcondition. *)
Definition triple {A} (P : state -> Prop) (m : M A)
           (Q : A -> state -> Prop) (E : exn -> state -> Prop) : Prop :=
  forall st, P st ->
             match m st with
             | Normal a st' => Q a st'
             | Raise e st' => E e st'
             end.

(** A computation that leaves the record, the file and the environment as
    they are: it only reads them and uses the console. *)
Definition read_only {A} (m : M A) : Prop :=
  forall st,
    session_data (final (m st)) = session_data st
    /\ disk (final (m st)) = disk st
    /\ write_error (final (m st)) = write_error st.

(** What a round guarantees. *)
Definition round_post (done : nat) (c : ctl) (st : state) : Prop :=
  match c with
  | Next => at_head (S done) st
  | Return => saveable st
  end.


(** What the loop over [len] steps guarantees when started at the head of
    round [done + 1]. *)
Definition loop_post (done len : nat) (c : ctl) (st : state) : Prop :=
  match c with
  | Next => at_head (done + len) st
  | Return => saveable st
  end.

(** The constructor key in which step [j] stores its answers. *)
Definition field_of (j : nat) : string :=
  match j with
  | 1 => "frontend_tech_stack"
  | 2 => "backend_framework"
  | 3 => "llm_requirements"
  | 4 => "data_format"
  | 5 => "api_design"
  | 6 => "auth_requirements"
  | 7 => "deployment_target"
  | 8 => "communication_method"
  | _ => EmptyString
  end.

(** The assistant after [self.session_data["current_step"] = i + 1]. *)
Definition advance (i : nat) (st : state) : state :=
  State (dict_set "current_step" (VInt (Z.of_nat (i + 1))) (session_data st))
        (console_of st) (disk st) (write_error st).

Definition review_lines : list string :=
  [ nl ++ "⏸️ Feel free to review the information above.";
    "Run the assistant again when you're ready to continue!" ].

Definition paused_line : string :=
  nl ++ nl ++ "⏸️ Assistant paused. Your progress has been saved.".

Definition error_lines (i : nat) (msg : string) : list string :=
  [ nl ++ "❌ Error in step " ++ str_nat i ++ ": " ++ msg;
    "Don't worry, you can restart the assistant anytime!" ].

Definition farewell_lines : list string :=
  [ nl ++ nl ++ "👋 Thanks for using the Backend Development Assistant!";
    "Run it again anytime: python backend-guide/assistant.py" ].

(** The operator's lines for a run that takes the first option of every
    question and goes on after each step. *)
Definition all_first_choices : list string := repeat "1" 22.

(** The lines of [generate_next_steps] for a recorded framework answer. *)
Definition next_steps_lines (framework : string) : list string :=
  (nl ++ "🚀 NEXT STEPS:") ::
  app (if contains "FastAPI" framework then fastapi_lines
       else if contains "Flask" framework then flask_lines
       else if contains "Node.js" framework then nodejs_lines
       else [])
      generic_next_lines.

(** The lines of the plan for the recorded answers of steps 2 to 7. *)
Definition plan_lines (fw llm vec src cpx sty rt au pv pf sc : string)
  : list string :=
  [ nl ++ "📋 IMPLEMENTATION PLAN";
    str_mul "=" 50;
    nl ++ "🎯 Your Customized Backend Implementation Plan:";
    nl ++ "1. **Backend Framework**: " ++ fw;
    nl ++ "2. **LLM Integration**: " ++ llm;
    "   **Vector DB**: " ++ vec;
    nl ++ "3. **Data Source**: " ++ src;
    "   **Complexity**: " ++ cpx;
    nl ++ "4. **API Style**: " ++ sty;
    "   **Real-time**: " ++ rt;
    nl ++ "5. **Authentication**: " ++ au;
    "   **Privacy Level**: " ++ pv;
    nl ++ "6. **Deployment**: " ++ pf;
    "   **Scale**: " ++ sc;
    nl ++ str_mul "=" 50;
    "✅ Plan generated! Check the framework-specific guides for detailed implementation." ].

(** The record after eight completed steps, from the operator's answers. *)
Definition completed_record
           (fam fw ex llm vec src cpx sty rt au pv pf sc cl eh : string) : dict :=
  layout (VDict [ ("framework", VStr "React + Vite");
                  ("styling", VStr "Tailwind CSS");
                  ("familiarity", VStr fam) ])
         (VStr fw)
         (VDict [ ("llm_choice", VStr llm); ("vector_db", VStr vec) ])
         (VDict [ ("source", VStr src); ("complexity", VStr cpx) ])
         (VDict [ ("style", VStr sty); ("realtime", VStr rt) ])
         (VDict [ ("auth_type", VStr au); ("privacy_level", VStr pv) ])
         (VDict [ ("platform", VStr pf); ("scale", VStr sc) ])
         (VDict [ ("client", VStr cl); ("error_handling", VStr eh) ])
         9
         [ (exp_key, VStr ex) ].

(** Some line of [lines] contains [s]. *)
Definition mentions (s : string) (lines : list string) : bool :=
  existsb (contains s) lines.

(** The lines a computation printed, given the state before and after. *)
Definition newly_printed (before after : state) : list string :=
  printed (skipn (length (stdout (console_of before)))
                 (stdout (console_of after))).

(** Every character of the string is ASCII (below 128).  On such strings,
    of at most 4300 characters for a numeral, [strip] and [int] above are
    Python's [str.strip] and [int]: Unicode white space and digits, and the
    digit limit of [int], are outside them. *)
Fixpoint ascii_only (s : string) : bool :=
  match s with
  | EmptyString => true
  | String a r => Nat.ltb (nat_of_ascii a) 128 && ascii_only r
  end.

(** What the free-text loop writes for a run of blank lines: a prompt and
    the complaint for each. *)
Definition blank_rounds (blanks : list string) : list out_event :=
  flat_map (fun _ => [ Prompt answer_prompt;
                       Print "❌ Please provide an answer." ]) blanks.

(** A step left [key], the file and the environment as they were. *)
Definition untouched (key : string) (st st' : state) : Prop :=
  dict_lookup key (session_data st') = dict_lookup key (session_data st)
  /\ disk st' = disk st
  /\ write_error st' = write_error st.

Definition congratulation_lines : list string :=
  [ nl ++ "🎉 Congratulations! You have a complete backend development plan.";
    "Check the framework-specific guides in backend-guide/frameworks/ to start coding!" ].

(** The two menus of [step_2_backend_framework]. *)
Definition framework_options : list string :=
  [ "FastAPI (Python) - High performance, automatic API docs";
    "Flask (Python) - Lightweight, flexible, great for MVPs";
    "Node.js (Express) - JavaScript full-stack, familiar syntax";
    "Django (Python) - Full-featured, built-in admin, ORM" ].

Definition experience_options : list string :=
  [ "Expert - I've built production applications";
    "Intermediate - I've built some projects";
    "Beginner - I'm learning or new to it" ].

(** The nested fields the plan reads. *)
Definition plan_fields : list string :=
  [ "llm_requirements"; "data_format"; "api_design"; "auth_requirements";
    "deployment_target" ].

(** The first lines of the plan, up to the framework entry. *)
Definition plan_head (framework : string) : list string :=
  [ nl ++ "📋 IMPLEMENTATION PLAN";
    str_mul "=" 50;
    nl ++ "🎯 Your Customized Backend Implementation Plan:";
    nl ++ "1. **Backend Framework**: " ++ framework ].

(** The lines [explain_framework_benefits] prints for an answer. *)
Definition benefit_lines (framework : string) : list string :=
  match assoc (split_first framework) benefits with
  | Some bs =>
      (nl ++ "✅ Great choice! " ++ split_first framework ++ " benefits:")
        :: map (fun benefit => "   " ++ benefit) bs
  | None => []
  end.

(* ================================================================== *)
(** * Properties *)

(** ** Builtins on examples *)

Example strip_ex : strip "  3 " = "3" /\ strip "   " = EmptyString.
Proof. split; reflexivity. Qed.

Example int_ex :
  int " 12" = Some 12%Z /\ int "1_0" = Some 10%Z /\ int "1__0" = None
  /\ int "-3" = Some (-3)%Z /\ int "abc" = None
  /\ int EmptyString = None /\ int "007" = Some 7%Z.
Proof. repeat split. Qed.

Example contains_ex :
  contains "No" "Nope" = true /\ contains "No" "no" = false
  /\ contains "No" "Yes, continue" = false.
Proof. repeat split. Qed.

Example str_nat_ex : str_nat 0 = "0" /\ str_nat 12 = "12".
Proof. split; reflexivity. Qed.

(** ** The console without a pending interrupt *)

Lemma print_quiet (s : string) (c : console) :
  sigint c = None -> print s c = Normal tt (wrote c [Print s]).
Proof.
  intros H. unfold print, bind, signal_check, emit, wrote.
  rewrite H. cbn. rewrite H. reflexivity.
Qed.

Lemma wrote_quiet (c : console) evs : sigint (wrote c evs) = None.
Proof. reflexivity. Qed.

Lemma wrote_wrote (c : console) e1 e2 :
  wrote (wrote c e1) e2 = wrote c (e1 ++ e2)%list.
Proof. unfold wrote. cbn. now rewrite <- app_assoc. Qed.

Lemma wrote_nil (c : console) : sigint c = None -> wrote c [] = c.
Proof.
  destruct c as [i o s]. unfold wrote. cbn. intros ->.
  now rewrite app_nil_r.
Qed.

Lemma print_all_quiet (lines : list string) (c : console) :
  sigint c = None ->
  print_all lines c = Normal tt (wrote c (map Print lines)).
Proof.
  revert c. induction lines as [|l r IH]; intros c H; cbn [print_all map].
  - unfold ret. now rewrite wrote_nil.
  - unfold bind. rewrite (print_quiet l c H).
    rewrite IH by apply wrote_quiet. now rewrite wrote_wrote.
Qed.

Lemma input_quiet (p line : string) (rest : list string) (c : console) :
  sigint c = None -> stdin c = line :: rest ->
  input p c = Normal line (Console rest (stdout c ++ [Prompt p]) None).
Proof.
  intros H Hin. unfold input, bind, emit, signal_check. cbn.
  rewrite H. cbn. now rewrite Hin.
Qed.

Lemma input_eof (p : string) (c : console) :
  sigint c = None -> stdin c = [] ->
  input p c = Raise EOFError (wrote c [Prompt p]).
Proof.
  intros H Hin. unfold input, bind, emit, signal_check, wrote. cbn.
  rewrite H. cbn. now rewrite Hin.
Qed.

(** ** The [while True] loop *)

Lemma while_rounds_eq {A} (body : IO (option A)) (fuel : nat) (c : console) :
  while_rounds body fuel c =
  match body c with
  | Normal (Some a) c' => Normal a c'
  | Normal None c' =>
      match fuel with
      | S f => while_rounds body f c'
      | 0 => Raise (Exc "RuntimeError" "while_input: body did not read") c'
      end
  | Raise e c' => Raise e c'
  end.
Proof.
  destruct fuel; cbn [while_rounds]; unfold bind;
    destruct (body c) as [[a|] c'|e c']; reflexivity.
Qed.

(** More fuel than lines left on [stdin] changes nothing: the bound of
    [while_input] is never the reason a loop ends. *)
Lemma while_rounds_fuel {A} (body : IO (option A)) :
  reads_each_round body ->
  forall f f' c, length (stdin c) <= f -> length (stdin c) <= f' ->
                 while_rounds body f c = while_rounds body f' c.
Proof.
  intros Hb f. induction f as [|f IH]; intros f' c Hf Hf';
    rewrite (while_rounds_eq body _ c), (while_rounds_eq body f' c);
    destruct (body c) as [[a|] c'|e c'] eqn:E; try reflexivity;
    apply Hb in E.
  - lia.
  - destruct f' as [|f']; [lia|]. apply IH; lia.
Qed.

Lemma while_input_unroll {A} (body : IO (option A)) (c : console) :
  reads_each_round body ->
  while_input body c =
  match body c with
  | Normal (Some a) c' => Normal a c'
  | Normal None c' => while_input body c'
  | Raise e c' => Raise e c'
  end.
Proof.
  intros Hb. unfold while_input. rewrite while_rounds_eq.
  destruct (body c) as [[a|] c'|e c'] eqn:E; try reflexivity.
  pose proof (Hb _ _ E) as Hlt.
  destruct (length (stdin c)) as [|f] eqn:L; [lia|].
  apply while_rounds_fuel; [assumption|lia|lia].
Qed.

Lemma input_reads (p : string) (c c' : console) (l : string) :
  input p c = Normal l c' -> length (stdin c) = S (length (stdin c')).
Proof.
  unfold input, bind, emit, signal_check. cbn.
  destruct (sigint c) as [[|n]|]; cbn; try discriminate;
    destruct (stdin c); cbn; try discriminate;
    intros E; injection E as _ <-; reflexivity.
Qed.

Lemma print_stdin (s : string) (c : console) :
  stdin (final (print s c)) = stdin c.
Proof.
  unfold print, bind, emit, signal_check.
  destruct (sigint c) as [[|n]|]; reflexivity.
Qed.

Lemma print_normal_stdin (s : string) (c c' : console) u :
  print s c = Normal u c' -> stdin c' = stdin c.
Proof. intros E. pose proof (print_stdin s c) as H. now rewrite E in H. Qed.

Lemma ask_round_reads (options : list string) (allow_custom : bool) :
  reads_each_round (ask_round options allow_custom).
Proof.
  intros c c'. unfold ask_round.
  destruct options as [|o os].
  - unfold bind. destruct (input answer_prompt c) as [l c1|] eqn:E1; [|discriminate].
    apply input_reads in E1.
    destruct (truthy (strip l)); [discriminate|].
    destruct (print _ c1) as [u c2|] eqn:E2; [|discriminate].
    apply print_normal_stdin in E2. unfold ret.
    intros E; injection E as <-. rewrite E2. lia.
  - unfold bind at 1. destruct (input choice_prompt c) as [l c1|] eqn:E1; [|discriminate].
    apply input_reads in E1.
    destruct (int (strip l)) as [k|].
    + destruct (_ && _)%bool.
      { unfold bind. destruct (print _ c1); discriminate. }
      destruct (_ && _)%bool.
      * unfold bind. destruct (input specify_prompt c1) as [l2 c2|] eqn:E2; [|discriminate].
        apply input_reads in E2.
        destruct (truthy (strip l2)).
        { destruct (print _ c2); discriminate. }
        unfold ret. intros E; injection E as <-. lia.
      * unfold bind. destruct (print _ c1) as [u c2|] eqn:E2; [|discriminate].
        apply print_normal_stdin in E2. unfold ret.
        intros E; injection E as <-. rewrite E2. lia.
    + unfold bind. destruct (print _ c1) as [u c2|] eqn:E2; [|discriminate].
      apply print_normal_stdin in E2. unfold ret.
      intros E; injection E as <-. rewrite E2. lia.
Qed.

(** The loop never stops for lack of fuel: it returns an answer its body
    returned, or raises what its body raised. *)
Lemma while_input_outcome {A} (body : IO (option A)) :
  reads_each_round body ->
  forall c,
    (exists a c0 c', while_input body c = Normal a c'
                     /\ body c0 = Normal (Some a) c')
    \/ (exists e c0 c', while_input body c = Raise e c' /\ body c0 = Raise e c').
Proof.
  intros Hb c.
  remember (length (stdin c)) as n eqn:Hn.
  revert c Hn. induction n as [n IH] using lt_wf_ind. intros c Hn.
  rewrite (while_input_unroll body c Hb).
  destruct (body c) as [[a|] c'|e c'] eqn:E.
  - left. exists a, c, c'. auto.
  - apply (IH (length (stdin c'))); [|reflexivity].
    subst n. apply (Hb _ _ E).
  - right. exists e, c, c'. auto.
Qed.

Lemma ask_loop_unroll (options : list string) (allow_custom : bool) (c : console) :
  ask_loop options allow_custom c =
  match ask_round options allow_custom c with
  | Normal (Some a) c' => Normal a c'
  | Normal None c' => ask_loop options allow_custom c'
  | Raise e c' => Raise e c'
  end.
Proof. apply while_input_unroll, ask_round_reads. Qed.

(** ** [ask_question] *)

Lemma ask_header_quiet (question : string) (options : list string)
      (allow_custom : bool) (c : console) :
  sigint c = None ->
  ask_header question options allow_custom c
  = Normal tt (wrote c (map Print (header_lines question options allow_custom))).
Proof.
  intros H. unfold ask_header, header_lines, bind.
  rewrite print_quiet by assumption.
  destruct options as [|o os]; [reflexivity|].
  rewrite print_quiet by apply wrote_quiet.
  rewrite print_all_quiet by apply wrote_quiet.
  rewrite !wrote_wrote.
  destruct allow_custom.
  - rewrite print_quiet by apply wrote_quiet. rewrite wrote_wrote.
    cbn [map app]. rewrite map_app. reflexivity.
  - unfold ret. cbn [map app]. rewrite app_nil_r. reflexivity.
Qed.

(** What one round of the menu loop does with the line it reads, on a
    console without a pending interrupt. *)
Lemma ask_round_menu (options : list string) (allow_custom : bool)
      (c : console) (line : string) (rest : list string) :
  options <> [] -> sigint c = None -> stdin c = line :: rest ->
  let N := Z.of_nat (length options) in
  let c1 := Console rest (stdout c ++ [Prompt choice_prompt]) None in
  ask_round options allow_custom c =
  match int (strip line) with
  | Some k =>
      if ((1 <=? k) && (k <=? N))%Z then
        let o := nth (Z.to_nat (k - 1)) options EmptyString in
        Normal (Some o) (wrote c1 [Print ("✅ Selected: " ++ o)])
      else if (allow_custom && (k =? N + 1)%Z)%bool then
        match rest with
        | [] => Raise EOFError (wrote c1 [Prompt specify_prompt])
        | line2 :: rest2 =>
            let c2 := Console rest2 (stdout c1 ++ [Prompt specify_prompt]) None in
            if truthy (strip line2)
            then Normal (Some (strip line2))
                        (wrote c2 [Print ("✅ Custom choice: " ++ strip line2)])
            else Normal None c2
        end
      else Normal None (wrote c1 [Print "❌ Invalid choice. Please try again."])
  | None => Normal None (wrote c1 [Print "❌ Please enter a valid number."])
  end.
Proof.
  intros Hne Hq Hin N c1. unfold ask_round.
  destruct options as [|o os]; [congruence|].
  unfold bind at 1. rewrite (input_quiet choice_prompt line rest c Hq Hin).
  fold c1. destruct (int (strip line)) as [k|].
  - fold N. destruct ((1 <=? k) && (k <=? N))%Z.
    + unfold bind, ret. now rewrite print_quiet.
    + destruct (allow_custom && (k =? N + 1)%Z)%bool.
      * unfold bind. destruct rest as [|line2 rest2].
        -- now rewrite input_eof.
        -- rewrite (input_quiet specify_prompt line2 rest2 c1) by reflexivity.
           destruct (truthy (strip line2)).
           ++ now rewrite print_quiet.
           ++ reflexivity.
      * unfold bind, ret. now rewrite print_quiet.
  - unfold bind, ret. now rewrite print_quiet.
Qed.

Lemma truthy_true (s : string) : s <> EmptyString -> truthy s = true.
Proof. destruct s; [congruence|reflexivity]. Qed.

Lemma nth_error_nth_string (l : list string) (n : nat) :
  n < length l -> nth_error l n = Some (nth n l EmptyString).
Proof.
  revert n. induction l as [|x l IH]; intros [|n] H; cbn in *; try lia.
  - reflexivity.
  - apply IH. lia.
Qed.

(** C2. With a non-empty option list of length [N] and custom answers
    allowed, on a console without pending interrupt: a line parsing as an
    integer of [[1, N]] makes [ask_question] return the option at that
    1-based position; [N+1] followed by a line that is non-empty once
    stripped returns that stripped line; an integer that is at most 0 or at
    least [N+2], and a line that is not a number, report the error and go
    round the loop again on the remaining input, returning nothing.  The
    lines are taken where [int] and [strip] are Python's: the choice at most
    4300 characters long, and ASCII where it is judged not a number; the
    free text ASCII. *)
Theorem ask_question_menu_choice
        (question : string) (options : list string) (c : console)
        (line : string) (rest : list string) :
  options <> [] -> sigint c = None -> stdin c = line :: rest ->
  String.length line <= 4300 ->
  let N := Z.of_nat (length options) in
  let shown := (stdout c ++ map Print (header_lines question options true)
                         ++ [Prompt choice_prompt])%list in
  (forall k : Z,
      int (strip line) = Some k -> (1 <= k <= N)%Z ->
      exists o, nth_error options (Z.to_nat (k - 1)) = Some o /\
        ask_question question options true c
        = Normal o (Console rest (shown ++ [Print ("✅ Selected: " ++ o)%string]) None))
  /\ (forall (line2 : string) (rest2 : list string),
         int (strip line) = Some (N + 1)%Z -> rest = line2 :: rest2 ->
         ascii_only line2 = true ->
         strip line2 <> EmptyString ->
         ask_question question options true c
         = Normal (strip line2)
                  (Console rest2
                     (shown ++ [Prompt specify_prompt;
                                Print ("✅ Custom choice: " ++ strip line2)%string])
                     None))
  /\ (forall k : Z,
         int (strip line) = Some k -> (k <= 0 \/ N + 2 <= k)%Z ->
         ask_question question options true c
         = ask_loop options true
             (Console rest
                (shown ++ [Print "❌ Invalid choice. Please try again."]) None))
  /\ (ascii_only line = true -> int (strip line) = None ->
      ask_question question options true c
      = ask_loop options true
          (Console rest (shown ++ [Print "❌ Please enter a valid number."]) None)).
Proof.
  intros Hne Hq Hin _ N shown.
  assert (Hstart : ask_question question options true c
                   = ask_loop options true
                       (wrote c (map Print (header_lines question options true)))).
  { unfold ask_question, bind. now rewrite ask_header_quiet. }
  rewrite Hstart, ask_loop_unroll.
  rewrite (ask_round_menu options true _ line rest Hne (wrote_quiet _ _) Hin).
  cbv zeta. fold N. unfold wrote; cbn [stdout stdin sigint].
  repeat split.
  - intros k Hk [H1 H2]. rewrite Hk.
    replace ((1 <=? k) && (k <=? N))%Z with true
      by (symmetry; apply andb_true_iff; split; apply Z.leb_le; lia).
    exists (nth (Z.to_nat (k - 1)) options EmptyString). split.
    + apply nth_error_nth_string. unfold N in H2. lia.
    + subst shown. rewrite <- ?app_assoc. reflexivity.
  - intros line2 rest2 Hk -> _ Hl2. rewrite Hk.
    replace ((1 <=? N + 1) && (N + 1 <=? N))%Z with false
      by (symmetry; apply andb_false_iff; right; apply Z.leb_gt; lia).
    rewrite Z.eqb_refl. cbn [andb]. rewrite (truthy_true _ Hl2).
    subst shown. rewrite <- ?app_assoc. reflexivity.
  - intros k Hk Hr. rewrite Hk.
    replace ((1 <=? k) && (k <=? N))%Z with false
      by (symmetry; apply andb_false_iff; destruct Hr;
          [left|right]; apply Z.leb_gt; lia).
    replace (k =? N + 1)%Z with false by (symmetry; apply Z.eqb_neq; lia).
    cbn [andb]. subst shown. rewrite <- ?app_assoc. reflexivity.
  - intros _ Hk. rewrite Hk. subst shown. rewrite <- ?app_assoc. reflexivity.
Qed.

Lemma ask_question_menu_choice_witness :
  ask_question continue_question continue_options true
               (Console ["2"; "x"] [] None)
  = Normal "No, let me review this step"
      (Console ["x"]
         (map Print (header_lines continue_question continue_options true)
            ++ [ Prompt choice_prompt;
                 Print "✅ Selected: No, let me review this step" ])%list None)
  /\ ask_question continue_question continue_options true
                  (Console ["3"; " Nope "] [] None)
     = Normal "Nope"
         (Console []
            (map Print (header_lines continue_question continue_options true)
               ++ [ Prompt choice_prompt; Prompt specify_prompt;
                    Print "✅ Custom choice: Nope" ])%list None)
  /\ ask_question continue_question continue_options true
                  (Console ["4"; "1"] [] None)
     = ask_loop continue_options true
         (Console ["1"]
            (map Print (header_lines continue_question continue_options true)
               ++ [ Prompt choice_prompt;
                    Print "❌ Invalid choice. Please try again." ])%list None)
  /\ ask_question continue_question continue_options true
                  (Console ["yes"; "1"] [] None)
     = ask_loop continue_options true
         (Console ["1"]
            (map Print (header_lines continue_question continue_options true)
               ++ [ Prompt choice_prompt;
                    Print "❌ Please enter a valid number." ])%list None).
Proof.
  assert (Hne : continue_options <> []) by discriminate.
  assert (Hlen : forall s, String.length s <= 5 -> String.length s <= 4300)
    by (intros s H; lia).
  split; [|split; [|split]].
  - destruct (proj1 (ask_question_menu_choice continue_question continue_options
                       (Console ["2"; "x"] [] None) "2" ["x"] Hne eq_refl eq_refl
                       (Hlen "2" ltac:(cbn; lia)))
                    2%Z eq_refl ltac:(cbn; lia)) as (o&Ho&E).
    injection Ho as <-. exact E.
  - exact (proj1 (proj2 (ask_question_menu_choice continue_question
                    continue_options (Console ["3"; " Nope "] [] None)
                    "3" [" Nope "] Hne eq_refl eq_refl
                    (Hlen "3" ltac:(cbn; lia))))
                 " Nope " [] eq_refl eq_refl eq_refl
                 ltac:(vm_compute; discriminate)).
  - exact (proj1 (proj2 (proj2 (ask_question_menu_choice continue_question
                    continue_options (Console ["4"; "1"] [] None)
                    "4" ["1"] Hne eq_refl eq_refl
                    (Hlen "4" ltac:(cbn; lia)))))
                 4%Z eq_refl ltac:(cbn; lia)).
  - exact (proj2 (proj2 (proj2 (ask_question_menu_choice continue_question
                    continue_options (Console ["yes"; "1"] [] None)
                    "yes" ["1"] Hne eq_refl eq_refl
                    (Hlen "yes" ltac:(cbn; lia)))))
                 eq_refl eq_refl).
Defined.

(** C3, as stated, fails: after the choice [N+1] and an empty free-text
    line the loop goes back to the numbered menu.  With two options and the
    lines 3, empty, 1 the three reads are prompted by the menu prompt, the
    free-text prompt and the menu prompt again, and the third line selects
    option 1. *)
Lemma empty_custom_reprompt_counterexample :
  let r := ask_question continue_question continue_options true
                        (Console ["3"; EmptyString; "1"] [] None) in
  prompts (stdout (final r)) = [choice_prompt; specify_prompt; choice_prompt]
  /\ nth 2 (prompts (stdout (final r))) EmptyString <> specify_prompt
  /\ exists c', r = Normal "Yes, continue" c'.
Proof.
  vm_compute. split; [reflexivity|]. split; [discriminate|].
  eexists. reflexivity.
Qed.

(** C3, amended. With options and custom answers allowed, the choice [N+1]
    followed by a line that is empty once stripped prints nothing more and
    restarts the loop at the numbered menu: the next read is prompted by the
    menu prompt (seen when the input ends there), and a following line
    holding an integer of [[1, N]] selects that option. *)
Theorem empty_custom_returns_to_menu
        (question : string) (options : list string) (c : console)
        (line line2 : string) (rest : list string) :
  options <> [] -> sigint c = None -> stdin c = line :: line2 :: rest ->
  int (strip line) = Some (Z.of_nat (length options) + 1)%Z ->
  strip line2 = EmptyString ->
  let shown := (stdout c ++ map Print (header_lines question options true)
                         ++ [Prompt choice_prompt; Prompt specify_prompt])%list in
  ask_question question options true c
  = ask_loop options true (Console rest shown None)
  /\ (rest = [] ->
      ask_question question options true c
      = Raise EOFError (Console [] (shown ++ [Prompt choice_prompt]) None))
  /\ (forall (line3 : string) (rest3 : list string) (k : Z),
         rest = line3 :: rest3 -> int (strip line3) = Some k ->
         (1 <= k <= Z.of_nat (length options))%Z ->
         exists o, nth_error options (Z.to_nat (k - 1)) = Some o /\
           ask_question question options true c
           = Normal o (Console rest3
                         (shown ++ [Prompt choice_prompt;
                                    Print ("✅ Selected: " ++ o)%string]) None)).
Proof.
  intros Hne Hq Hin Hk Hl2 shown.
  assert (Hback : ask_question question options true c
                  = ask_loop options true (Console rest shown None)).
  { unfold ask_question, bind. rewrite ask_header_quiet by assumption.
    rewrite ask_loop_unroll.
    rewrite (ask_round_menu options true _ line (line2 :: rest) Hne
                            (wrote_quiet _ _) Hin).
    cbv zeta. rewrite Hk.
    replace ((1 <=? Z.of_nat (length options) + 1)
             && (Z.of_nat (length options) + 1 <=? Z.of_nat (length options)))%Z
      with false by (symmetry; apply andb_false_iff; right; apply Z.leb_gt; lia).
    rewrite Z.eqb_refl. cbn [andb]. rewrite Hl2. cbn [truthy].
    unfold wrote; cbn [stdout stdin sigint].
    subst shown. rewrite <- ?app_assoc. reflexivity. }
  split; [exact Hback|]. rewrite Hback. split.
  - intros ->. rewrite ask_loop_unroll. unfold ask_round.
    destruct options as [|o os]; [congruence|].
    unfold bind. rewrite input_eof by reflexivity. reflexivity.
  - intros line3 rest3 k -> Hk3 Hr. rewrite ask_loop_unroll.
    rewrite (ask_round_menu options true (Console (line3 :: rest3) shown None)
                            line3 rest3 Hne eq_refl eq_refl).
    cbv zeta. rewrite Hk3.
    replace ((1 <=? k) && (k <=? Z.of_nat (length options)))%Z with true
      by (symmetry; apply andb_true_iff; split; apply Z.leb_le; lia).
    exists (nth (Z.to_nat (k - 1)) options EmptyString). split.
    + apply nth_error_nth_string. lia.
    + unfold wrote; cbn [stdout stdin sigint].
      rewrite <- ?app_assoc. reflexivity.
Qed.

Lemma empty_custom_returns_to_menu_witness :
  ask_question continue_question continue_options true
               (Console ["3"; "  "; "1"] [] None)
  = ask_loop continue_options true
      (Console ["1"]
         ([] ++ map Print (header_lines continue_question continue_options true)
             ++ [Prompt choice_prompt; Prompt specify_prompt])%list None).
Proof.
  apply (proj1 (empty_custom_returns_to_menu continue_question continue_options
                  (Console ["3"; "  "; "1"] [] None) "3" "  " ["1"]
                  ltac:(discriminate) eq_refl eq_refl eq_refl eq_refl)).
Defined.

(** ** The session record along a run *)

Lemma layout_set_1 a1 a2 a3 a4 a5 a6 a7 a8 c ex v :
  dict_set "frontend_tech_stack" v (layout a1 a2 a3 a4 a5 a6 a7 a8 c ex)
  = layout v a2 a3 a4 a5 a6 a7 a8 c ex.
Proof. reflexivity. Qed.

Lemma layout_set_2 a1 a2 a3 a4 a5 a6 a7 a8 c ex v :
  dict_set "backend_framework" v (layout a1 a2 a3 a4 a5 a6 a7 a8 c ex)
  = layout a1 v a3 a4 a5 a6 a7 a8 c ex.
Proof. reflexivity. Qed.

Lemma layout_set_3 a1 a2 a3 a4 a5 a6 a7 a8 c ex v :
  dict_set "llm_requirements" v (layout a1 a2 a3 a4 a5 a6 a7 a8 c ex)
  = layout a1 a2 v a4 a5 a6 a7 a8 c ex.
Proof. reflexivity. Qed.

Lemma layout_set_4 a1 a2 a3 a4 a5 a6 a7 a8 c ex v :
  dict_set "data_format" v (layout a1 a2 a3 a4 a5 a6 a7 a8 c ex)
  = layout a1 a2 a3 v a5 a6 a7 a8 c ex.
Proof. reflexivity. Qed.

Lemma layout_set_5 a1 a2 a3 a4 a5 a6 a7 a8 c ex v :
  dict_set "api_design" v (layout a1 a2 a3 a4 a5 a6 a7 a8 c ex)
  = layout a1 a2 a3 a4 v a6 a7 a8 c ex.
Proof. reflexivity. Qed.

Lemma layout_set_6 a1 a2 a3 a4 a5 a6 a7 a8 c ex v :
  dict_set "auth_requirements" v (layout a1 a2 a3 a4 a5 a6 a7 a8 c ex)
  = layout a1 a2 a3 a4 a5 v a7 a8 c ex.
Proof. reflexivity. Qed.

Lemma layout_set_7 a1 a2 a3 a4 a5 a6 a7 a8 c ex v :
  dict_set "deployment_target" v (layout a1 a2 a3 a4 a5 a6 a7 a8 c ex)
  = layout a1 a2 a3 a4 a5 a6 v a8 c ex.
Proof. reflexivity. Qed.

Lemma layout_set_8 a1 a2 a3 a4 a5 a6 a7 a8 c ex v :
  dict_set "communication_method" v (layout a1 a2 a3 a4 a5 a6 a7 a8 c ex)
  = layout a1 a2 a3 a4 a5 a6 a7 v c ex.
Proof. reflexivity. Qed.

Lemma layout_set_step a1 a2 a3 a4 a5 a6 a7 a8 c ex c' :
  dict_set "current_step" (VInt (Z.of_nat c'))
           (layout a1 a2 a3 a4 a5 a6 a7 a8 c ex)
  = layout a1 a2 a3 a4 a5 a6 a7 a8 c' ex.
Proof. reflexivity. Qed.

Lemma layout_set_exp a1 a2 a3 a4 a5 a6 a7 a8 c ex v :
  ex = [] \/ (exists e, ex = [ (exp_key, VStr e) ]) ->
  dict_set "backend_framework_experience" v
           (layout a1 a2 a3 a4 a5 a6 a7 a8 c ex)
  = layout a1 a2 a3 a4 a5 a6 a7 a8 c [ (exp_key, v) ].
Proof. intros [->|[e ->]]; reflexivity. Qed.

Lemma init_layout :
  init_session_data = layout VNone VNone VNone VNone VNone VNone VNone VNone 1 [].
Proof. reflexivity. Qed.

(** Closes the [slot] and [extra] goals of a [shape] from those in the
    context. *)
Ltac use_hyp :=
  match goal with
  | H : ?G |- ?G => exact H
  | H : _ -> ?G |- ?G => apply H; lia
  end.

Ltac slots :=
  unfold slot, extra in *;
  repeat match goal with
         | H : _ /\ _ |- _ => destruct H
         end;
  repeat split; intros;
  first [ lia
        | use_hyp
        | left; reflexivity
        | right; unfold form, pair_of; repeat eexists; fail
        | unfold form, pair_of; repeat eexists; fail
        | discriminate
        | congruence ].

Ltac shape_here :=
  do 9 eexists; split; [reflexivity|]; slots.

Lemma slot_slack done j a : slot done 0 j a -> slot done 1 j a.
Proof.
  intros (H1&H2&H3). repeat split; auto. intros; apply H3; lia.
Qed.

Lemma extra_slack done ex : extra done 0 ex -> extra done 1 ex.
Proof.
  intros (H1&H2&H3). repeat split; auto. intros; apply H3; lia.
Qed.

Lemma shape_slack done c d : shape done 0 c d -> shape done 1 c d.
Proof.
  intros (a1&a2&a3&a4&a5&a6&a7&a8&ex&E&S1&S2&S3&S4&S5&S6&S7&S8&Sx).
  exists a1, a2, a3, a4, a5, a6, a7, a8, ex.
  split; [exact E|].
  repeat (split; [apply slot_slack; assumption|]).
  apply extra_slack; assumption.
Qed.

Lemma shape_advance done c d :
  shape done 0 c d ->
  shape done 0 (S c) (dict_set "current_step" (VInt (Z.of_nat (c + 1))) d).
Proof.
  intros (a1&a2&a3&a4&a5&a6&a7&a8&ex&E&S).
  exists a1, a2, a3, a4, a5, a6, a7, a8, ex. split; [|exact S].
  subst d. rewrite layout_set_step. f_equal. lia.
Qed.

(** Console operations leave the record, the file and the environment
    alone, whatever they do. *)
Lemma lift_frame {A} (m : IO A) (st : state) :
  session_data (final (lift m st)) = session_data st
  /\ disk (final (lift m st)) = disk st
  /\ write_error (final (lift m st)) = write_error st.
Proof. unfold lift. destruct (m (console_of st)); cbn; auto. Qed.

(** Runs the console operations of a step one after the other, whatever
    their outcome. *)
Ltac run_console :=
  repeat (match goal with
          | |- context [match ?t with Normal _ _ => _ | Raise _ _ => _ end] =>
              lazymatch type of t with
              | result console _ => destruct t as [? ?c|? ?c]
              end
          end;
          cbv beta iota delta [session_data console_of disk write_error]).

Ltac open_step st H :=
  let E := fresh "E" in
  let Hd := fresh "Hd" in
  destruct st as [sd c dk we];
  destruct H as [(a1&a2&a3&a4&a5&a6&a7&a8&ex&E&S1&S2&S3&S4&S5&S6&S7&S8&Sx) Hd];
  cbn [session_data disk] in E, Hd; subst sd dk;
  cbv beta iota delta [bind lift ret set_item with_console
                       session_data console_of disk write_error];
  run_console.

Ltac close_step done :=
  unfold step_returned, saveable, snapshot_ok;
  cbn [session_data disk];
  rewrite ?layout_set_1, ?layout_set_2, ?layout_set_3, ?layout_set_4,
    ?layout_set_5, ?layout_set_6, ?layout_set_7, ?layout_set_8;
  first [ split; [shape_here|reflexivity]
        | split; [exists done; split; [lia|shape_here]|left; reflexivity] ].

Lemma step_1_triple :
  triple (at_head 0) step_1_frontend_analysis
         (fun _ => step_returned 0) (fun _ => saveable).
Proof.
  intros st H. unfold step_1_frontend_analysis. open_step st H.
  all: close_step 0.
Qed.

Lemma step_2_triple :
  triple (at_head 1) step_2_backend_framework
         (fun _ => step_returned 1) (fun _ => saveable).
Proof.
  intros st H. unfold step_2_backend_framework.
  assert (Hex : forall ex, extra 1 0 ex -> ex = [])
    by (intros ex0 Hx; apply Hx; lia).
  open_step st H.
  all: rewrite (Hex ex Sx) in *.
  all: unfold step_returned, saveable, snapshot_ok; cbn [session_data disk];
    rewrite ?layout_set_2;
    rewrite ?(layout_set_exp _ _ _ _ _ _ _ _ _ [] _ (or_introl eq_refl)).
  all: first [ split; [shape_here|reflexivity]
             | split; [exists 1; split; [lia|shape_here]|left; reflexivity] ].
Qed.

Lemma step_3_triple :
  triple (at_head 2) step_3_llm_integration
         (fun _ => step_returned 2) (fun _ => saveable).
Proof.
  intros st H. unfold step_3_llm_integration. open_step st H.
  all: close_step 2.
Qed.

Lemma step_4_triple :
  triple (at_head 3) step_4_data_structure
         (fun _ => step_returned 3) (fun _ => saveable).
Proof.
  intros st H. unfold step_4_data_structure. open_step st H.
  all: close_step 3.
Qed.

Lemma step_5_triple :
  triple (at_head 4) step_5_api_design
         (fun _ => step_returned 4) (fun _ => saveable).
Proof.
  intros st H. unfold step_5_api_design. open_step st H.
  all: close_step 4.
Qed.

Lemma step_6_triple :
  triple (at_head 5) step_6_authentication_security
         (fun _ => step_returned 5) (fun _ => saveable).
Proof.
  intros st H. unfold step_6_authentication_security. open_step st H.
  all: close_step 5.
Qed.

Lemma step_7_triple :
  triple (at_head 6) step_7_deployment_scalability
         (fun _ => step_returned 6) (fun _ => saveable).
Proof.
  intros st H. unfold step_7_deployment_scalability. open_step st H.
  all: close_step 6.
Qed.

Lemma step_8_triple :
  triple (at_head 7) step_8_communication_method
         (fun _ => step_returned 7) (fun _ => saveable).
Proof.
  intros st H. unfold step_8_communication_method. open_step st H.
  all: close_step 7.
Qed.

(** *** Computations that only read the record *)

Lemma read_only_lift {A} (m : IO A) : read_only (lift m).
Proof. intros st. apply lift_frame. Qed.

Lemma read_only_ret {A} (a : A) : read_only (ret (S := state) a).
Proof. intros st. cbn. auto. Qed.

Lemma read_only_raise {A} (e : exn) : read_only (raise (S := state) (A := A) e).
Proof. intros st. cbn. auto. Qed.

Lemma read_only_get_item k v : read_only (get_item k v).
Proof. intros st. cbn. auto. Qed.

Lemma read_only_bind {A B} (m : M A) (f : A -> M B) :
  read_only m -> (forall a, read_only (f a)) -> read_only (bind m f).
Proof.
  intros Hm Hf st. unfold bind. specialize (Hm st).
  destruct (m st) as [a st1|e st1]; cbn in Hm.
  - destruct (Hf a st1) as (H1&H2&H3). destruct Hm as (G1&G2&G3).
    repeat split; congruence.
  - exact Hm.
Qed.

Lemma read_only_attr_get info k v : read_only (attr_get info k v).
Proof.
  destruct info; unfold attr_get;
    first [apply read_only_ret | apply read_only_raise].
Qed.

Lemma read_only_py_in needle v : read_only (py_in needle v).
Proof.
  destruct v; unfold py_in;
    first [apply read_only_ret | apply read_only_raise].
Qed.

Ltac read_only_tac :=
  repeat first [ apply read_only_lift
               | apply read_only_ret
               | apply read_only_raise
               | apply read_only_get_item
               | apply read_only_attr_get
               | apply read_only_py_in
               | apply read_only_bind; [|intros]
               | match goal with
                 | |- read_only (if ?b then _ else _) => destruct b
                 end ].

Lemma read_only_next_steps : read_only generate_next_steps.
Proof. unfold generate_next_steps. read_only_tac. Qed.

Lemma read_only_plan_entry f l1 k1 l2 k2 : read_only (plan_entry f l1 k1 l2 k2).
Proof. unfold plan_entry. read_only_tac. Qed.

Lemma read_only_plan : read_only generate_implementation_plan.
Proof.
  unfold generate_implementation_plan.
  repeat first [ apply read_only_plan_entry
               | apply read_only_next_steps
               | apply read_only_lift
               | apply read_only_get_item
               | apply read_only_bind; [|intros] ].
Qed.

Lemma read_only_farewell : read_only farewell.
Proof. unfold farewell. read_only_tac. Qed.

(** *** [saveable] is kept by everything the sequencer does *)

Lemma saveable_same (st st' : state) :
  session_data st' = session_data st -> disk st' = disk st ->
  saveable st -> saveable st'.
Proof. unfold saveable. intros -> ->. auto. Qed.

Lemma read_only_saveable {A} (m : M A) :
  read_only m -> triple saveable m (fun _ => saveable) (fun _ => saveable).
Proof.
  intros Hm st Hs. destruct (Hm st) as (H1&H2&_).
  destruct (m st); cbn in *; eapply saveable_same; eauto.
Qed.

Lemma at_head_saveable done st : done <= 8 -> at_head done st -> saveable st.
Proof.
  intros Hle [Hs Hd]. split.
  - exists done. split; [exact Hle|]. apply shape_slack, Hs.
  - left. exact Hd.
Qed.

Lemma triple_bind {A B} (P : state -> Prop) (m : M A) (f : A -> M B)
      (Q : A -> state -> Prop) (R : B -> state -> Prop)
      (E : exn -> state -> Prop) :
  triple P m Q E -> (forall a, triple (Q a) (f a) R E) ->
  triple P (bind m f) R E.
Proof.
  intros Hm Hf st HP. unfold bind. specialize (Hm st HP).
  destruct (m st) as [a st1|e st1]; [apply Hf, Hm|exact Hm].
Qed.

Lemma triple_weaken {A} (P P' : state -> Prop) (m : M A)
      (Q Q' : A -> state -> Prop) (E E' : exn -> state -> Prop) :
  triple P' m Q' E' ->
  (forall st, P st -> P' st) ->
  (forall a st, Q' a st -> Q a st) ->
  (forall e st, E' e st -> E e st) ->
  triple P m Q E.
Proof.
  intros Hm HP HQ HE st Hst. specialize (Hm st (HP st Hst)).
  destruct (m st); auto.
Qed.

Lemma triple_ret {A} (P : state -> Prop) (a : A) (E : exn -> state -> Prop) :
  triple P (ret a) (fun x st => x = a /\ P st) E.
Proof. intros st HP. cbn. auto. Qed.

Lemma save_session_saveable :
  triple saveable save_session (fun _ => saveable) (fun _ => saveable).
Proof.
  intros [sd c dk we] [Hs Hd].
  unfold save_session, try_except, bind, dump_session.
  cbn [write_error session_data console_of disk] in *.
  destruct we as [msg|].
  - apply (read_only_saveable _ (read_only_lift _)). split; assumption.
  - assert (Hw : saveable (State sd c (Some sd) None))
      by (split; [exact Hs|right; reflexivity]).
    pose proof (read_only_saveable (lift (print (nl ++ "💾 Session saved to backend_assistant_session.json")))
                  (read_only_lift _) _ Hw) as H.
    destruct (lift _ _) as [u st1|e st1]; [exact H|].
    destruct e as [|cls msg].
    + exact H.
    + apply (read_only_saveable _ (read_only_lift _) _ H).
Qed.

Lemma pause_and_save_saveable :
  triple saveable pause_and_save
         (fun c st => c = Return /\ saveable st) (fun _ => saveable).
Proof.
  unfold pause_and_save.
  eapply triple_bind; [apply read_only_saveable, read_only_lift|intros ?].
  eapply triple_bind; [apply read_only_saveable, read_only_lift|intros ?].
  eapply triple_bind; [apply save_session_saveable|intros ?].
  apply triple_ret.
Qed.

Lemma on_interrupt_saveable :
  triple saveable on_interrupt
         (fun c st => c = Return /\ saveable st) (fun _ => saveable).
Proof.
  unfold on_interrupt.
  eapply triple_bind; [apply read_only_saveable, read_only_lift|intros ?].
  eapply triple_bind; [apply save_session_saveable|intros ?].
  apply triple_ret.
Qed.

Lemma on_error_saveable i msg :
  triple saveable (on_error i msg)
         (fun c st => c = Return /\ saveable st) (fun _ => saveable).
Proof.
  unfold on_error.
  eapply triple_bind; [apply read_only_saveable, read_only_lift|intros ?].
  eapply triple_bind; [apply read_only_saveable, read_only_lift|intros ?].
  apply triple_ret.
Qed.

Lemma iteration_body_triple (n done : nat) (step : M bool) :
  done < 8 ->
  triple (at_head done) step (fun _ => step_returned done) (fun _ => saveable) ->
  triple (at_head done) (iteration_body n (S done) step)
         (round_post done) (fun _ => saveable).
Proof.
  intros Hlt Hstep. unfold iteration_body.
  eapply triple_bind; [exact Hstep|intros ?].
  eapply triple_bind with (Q := fun _ => at_head (S done)).
  { intros st [Hs Hd]. cbn. split; [|exact Hd].
    cbn [session_data]. apply shape_advance, Hs. }
  intros ?. destruct (Nat.ltb (S done) n); [|intros st H; exact H].
  eapply triple_bind with (Q := fun _ => at_head (S done)).
  { intros st H. pose proof (lift_frame (ask_question continue_question
                                           continue_options true) st) as (H1&H2&_).
    destruct H as [Hs Hd].
    destruct (lift _ st) as [ans st1|e st1]; cbn in H1, H2.
    - split; congruence.
    - apply (at_head_saveable (S done)); [lia|]. split; congruence. }
  intros answer. destruct (contains "No" answer).
  - eapply triple_weaken; [apply pause_and_save_saveable| | |].
    + intros st H. apply (at_head_saveable (S done)); [lia|exact H].
    + intros c st [-> H]. exact H.
    + auto.
  - intros st H. exact H.
Qed.

Lemma iteration_triple (n done : nat) (step : M bool) :
  done < 8 ->
  triple (at_head done) step (fun _ => step_returned done) (fun _ => saveable) ->
  triple (at_head done) (iteration n (S done) step)
         (round_post done) (fun _ => saveable).
Proof.
  intros Hlt Hstep st H. unfold iteration, try_except.
  pose proof (iteration_body_triple n done step Hlt Hstep st H) as Hb.
  destruct (iteration_body n (S done) step st) as [c st1|e st1]; [exact Hb|].
  destruct e as [|cls msg].
  - pose proof (on_interrupt_saveable st1 Hb) as Hh.
    destruct (on_interrupt st1) as [c st2|e st2]; [|exact Hh].
    destruct Hh as [-> Hh]. exact Hh.
  - pose proof (on_error_saveable (S done) msg st1 Hb) as Hh.
    destruct (on_error (S done) msg st1) as [c st2|e st2]; [|exact Hh].
    destruct Hh as [-> Hh]. exact Hh.
Qed.

Lemma run_loop_triple (n : nat) (l : list (M bool)) :
  forall done,
    (forall j step, nth_error l j = Some step ->
                    triple (at_head (done + j)) (iteration n (S (done + j)) step)
                           (round_post (done + j)) (fun _ => saveable)) ->
    triple (at_head done) (run_loop n (S done) l)
           (loop_post done (length l)) (fun _ => saveable).
Proof.
  induction l as [|step rest IH]; intros done H.
  - intros st Hst. cbn. now rewrite Nat.add_0_r.
  - cbn [run_loop length].
    eapply triple_bind with (Q := round_post done).
    + specialize (H 0 step eq_refl). now rewrite Nat.add_0_r in H.
    + intros [|].
      * eapply triple_weaken; [apply (IH (S done))| | |]; auto.
        -- intros j s Hj. specialize (H (S j) s Hj).
           now rewrite Nat.add_succ_r in H.
        -- intros c st. unfold loop_post. now rewrite Nat.add_succ_r.
      * intros st Hst. exact Hst.
Qed.

Lemma steps_triples (j : nat) (step : M bool) :
  nth_error steps j = Some step ->
  triple (at_head j) step (fun _ => step_returned j) (fun _ => saveable).
Proof.
  intros H.
  do 8 (destruct j as [|j];
        [injection H as <-;
         first [ apply step_1_triple | apply step_2_triple | apply step_3_triple
               | apply step_4_triple | apply step_5_triple | apply step_6_triple
               | apply step_7_triple | apply step_8_triple ]|]).
  destruct j; discriminate.
Qed.

Lemma steps_rounds (n j : nat) (step : M bool) :
  nth_error steps j = Some step ->
  triple (at_head (0 + j)) (iteration n (S (0 + j)) step)
         (round_post (0 + j)) (fun _ => saveable).
Proof.
  intros H. cbn [Nat.add].
  assert (Hj : j < 8).
  { change 8 with (length steps). apply nth_error_Some. congruence. }
  apply iteration_triple; [exact Hj|]. now apply steps_triples.
Qed.

Lemma nth_error_firstn_some {A} (l : list A) (k j : nat) (x : A) :
  nth_error (firstn k l) j = Some x -> nth_error l j = Some x.
Proof.
  revert k j. induction l as [|y l IH]; intros [|k] [|j]; cbn; try discriminate;
    auto. apply IH.
Qed.

(** The loop over the first [k] steps, and over all of them. *)
Lemma run_loop_prefix_triple (n k : nat) :
  triple (at_head 0) (run_loop n 1 (firstn k steps))
         (loop_post 0 (length (firstn k steps))) (fun _ => saveable).
Proof.
  apply run_loop_triple. intros j step H.
  apply steps_rounds. eapply nth_error_firstn_some, H.
Qed.

Lemma run_loop_steps_triple (n : nat) :
  triple (at_head 0) (run_loop n 1 steps) (loop_post 0 8) (fun _ => saveable).
Proof. apply (run_loop_triple n steps 0). intros j step. apply steps_rounds. Qed.

Lemma finish_saveable :
  triple saveable finish (fun _ => saveable) (fun _ => saveable).
Proof.
  unfold finish.
  eapply triple_bind; [apply read_only_saveable, read_only_plan|intros ?].
  eapply triple_bind; [apply save_session_saveable|intros ?].
  eapply triple_bind; [apply read_only_saveable, read_only_lift|intros ?].
  apply read_only_saveable, read_only_lift.
Qed.

Lemma run_body_saveable :
  triple (at_head 0) (run_body steps) (fun _ => saveable) (fun _ => saveable).
Proof.
  unfold run_body.
  eapply triple_bind with (Q := fun _ => at_head 0).
  { intros st H. pose proof (lift_frame display_welcome st) as (H1&H2&_).
    destruct H as [Hs Hd].
    destruct (lift _ st) as [u st1|e st1]; cbn in H1, H2.
    - split; congruence.
    - apply (at_head_saveable 0); [lia|]. split; congruence. }
  intros ?.
  eapply triple_bind; [apply run_loop_steps_triple|].
  intros [|].
  - eapply triple_weaken; [apply finish_saveable| | |]; auto.
    intros st H. apply (at_head_saveable 8); [lia|exact H].
  - intros st H. exact H.
Qed.

Lemma at_head_init inp sig werr : at_head 0 (init inp sig werr).
Proof.
  split; [|reflexivity]. cbn [init session_data]. rewrite init_layout.
  do 9 eexists. split; [reflexivity|].
  unfold slot, extra. repeat split; intros; try lia; auto.
Qed.

(** Whatever the operator types, whenever the interrupt comes and whether or
    not the file can be written, a run ends with a record that is a possible
    snapshot, and the file is either untouched or holds that record. *)
Lemma main_saveable inp sig werr : saveable (final (main inp sig werr)).
Proof.
  unfold main, run, run_steps, try_except.
  pose proof (run_body_saveable (init inp sig werr) (at_head_init inp sig werr)) as H.
  destruct (run_body steps (init inp sig werr)) as [u st|e st]; [exact H|].
  destruct e as [|cls msg].
  - pose proof (read_only_saveable farewell read_only_farewell st H) as Hf.
    destruct (farewell st); exact Hf.
  - exact H.
Qed.

(** *** Reading a record of a given shape *)

Lemma form_not_none j a : form j a -> a <> VNone.
Proof.
  intros H ->.
  destruct j as [|[|[|[|[|[|[|[|[|j]]]]]]]]]; cbn in H; unfold pair_of in H;
    try contradiction;
    try (destruct H as (x&y&H); discriminate);
    destruct H as [s H]; discriminate.
Qed.

Lemma shape_current_step done slack c d :
  shape done slack c d ->
  dict_lookup "current_step" d = Some (VInt (Z.of_nat c)).
Proof.
  intros (a1&a2&a3&a4&a5&a6&a7&a8&ex&E&_). subst d. reflexivity.
Qed.

Lemma shape_field done slack c d j :
  1 <= j <= 8 -> shape done slack c d ->
  exists a, dict_lookup (field_of j) d = Some a /\ slot done slack j a.
Proof.
  intros Hj (a1&a2&a3&a4&a5&a6&a7&a8&ex&E&S1&S2&S3&S4&S5&S6&S7&S8&_).
  subst d.
  destruct j as [|j]; [lia|].
  do 8 (destruct j as [|j]; [eexists; split; [reflexivity|assumption]|]).
  lia.
Qed.

Lemma shape_extra done slack c d :
  shape done slack c d ->
  (keys d = keys init_session_data /\ dict_lookup exp_key d = None
   /\ done + slack < 2 + slack)
  \/ (keys d = (keys init_session_data ++ [exp_key])%list
      /\ (exists e, dict_lookup exp_key d = Some (VStr e))
      /\ 1 <= done + slack).
Proof.
  intros (a1&a2&a3&a4&a5&a6&a7&a8&ex&E&_&_&_&_&_&_&_&_&Hex&H2&H3).
  destruct Hex as [->|[e ->]].
  - left. subst d. repeat split.
    destruct (le_lt_dec 2 done) as [H|H]; [|lia].
    exfalso. apply (H2 H). reflexivity.
  - right. subst d. repeat split.
    + exists e. reflexivity.
    + destruct (le_lt_dec 1 (done + slack)) as [H|H]; [exact H|].
      assert (done + slack < 2) by lia. specialize (H3 H0). discriminate.
Qed.

Lemma shape_recorded done slack c d j key :
  shape done slack c d -> 1 <= j <= done -> j <= 8 -> In key (owned j) ->
  recorded key d.
Proof.
  intros Hs Hj H8 Hin.
  assert (Hf : recorded (field_of j) d).
  { destruct (shape_field done slack c d j ltac:(lia) Hs) as (a&Ha&_&Hform&_).
    exists a. split; [exact Ha|]. apply (form_not_none j), Hform. lia. }
  destruct j as [|j]; [lia|].
  destruct j as [|j]; [destruct Hin as [<-|[]]; exact Hf|].
  destruct j as [|j].
  { destruct Hin as [<-|[<-|[]]]; [exact Hf|].
    destruct (shape_extra done slack c d Hs) as [(_&_&H)|(_&[e He]&_)]; [lia|].
    exists (VStr e). split; [exact He|discriminate]. }
  do 6 (destruct j as [|j]; [destruct Hin as [<-|[]]; exact Hf|]).
  lia.
Qed.

Lemma shape_blank done slack c d j key :
  shape done slack c d -> done + slack < j -> j <= 8 -> In key (owned j) ->
  blank key d.
Proof.
  intros Hs Hj H8 Hin.
  assert (Hf : blank (field_of j) d).
  { destruct (shape_field done slack c d j ltac:(lia) Hs) as (a&Ha&_&_&Hnone).
    unfold blank, dict_get. rewrite Ha. apply Hnone, Hj. }
  destruct j as [|j]; [lia|].
  destruct j as [|j]; [destruct Hin as [<-|[]]; exact Hf|].
  destruct j as [|j].
  { destruct Hin as [<-|[<-|[]]]; [exact Hf|].
    destruct Hs as (a1&a2&a3&a4&a5&a6&a7&a8&ex&E&_&_&_&_&_&_&_&_&(_&_&H3)).
    rewrite (H3 Hj) in E. subst d. reflexivity. }
  do 6 (destruct j as [|j]; [destruct Hin as [<-|[]]; exact Hf|]).
  lia.
Qed.

(** ** The sequencer *)

Lemma welcome_head (st0 stw : state) (u : unit) :
  at_head 0 st0 -> lift display_welcome st0 = Normal u stw -> at_head 0 stw.
Proof.
  intros [Hs Hd] E. pose proof (lift_frame display_welcome st0) as (H1&H2&_).
  rewrite E in H1, H2. cbn in H1, H2. split; congruence.
Qed.

(** When the first [k] steps have run and the operator went on after each,
    the assistant is at the head of round [k + 1]. *)
Lemma prefix_head (n k : nat) (st0 st : state) :
  k <= 8 -> at_head 0 st0 ->
  run_loop n 1 (firstn k steps) st0 = Normal Next st ->
  at_head k st.
Proof.
  intros Hk H0 E. pose proof (run_loop_prefix_triple n k st0 H0) as H.
  rewrite E in H. unfold loop_post in H.
  rewrite length_firstn in H. cbn [steps length Nat.add] in H.
  now rewrite Nat.min_l in H by exact Hk.
Qed.

(** C9. [current_step] is the index of the next step to run: it is 1 in a
    fresh record; once the first [k] steps have completed it is [k + 1]; and
    whatever the run, a record found in the snapshot file is the session
    record, with [current_step] some [c] of 1..9 such that every step before
    [c] has all its fields recorded and every step after [c] has all its
    fields null. *)
Theorem current_step_is_next_step :
  dict_lookup "current_step" init_session_data = Some (VInt 1)
  /\ (forall inp sig werr (k : nat) (stw st : state),
         k <= 8 ->
         lift display_welcome (init inp sig werr) = Normal tt stw ->
         run_loop 8 1 (firstn k steps) stw = Normal Next st ->
         dict_lookup "current_step" (session_data st)
         = Some (VInt (Z.of_nat (k + 1))))
  /\ (forall inp sig werr (d : dict),
         disk (final (main inp sig werr)) = Some d ->
         d = session_data (final (main inp sig werr))
         /\ exists c : nat,
             1 <= c <= 9
             /\ dict_lookup "current_step" d = Some (VInt (Z.of_nat c))
             /\ (forall j key, 1 <= j < c -> In key (owned j) -> recorded key d)
             /\ (forall j key, c < j <= 8 -> In key (owned j) -> blank key d)).
Proof.
  split; [reflexivity|]. split.
  - intros inp sig werr k stw st Hk Hw Hl.
    pose proof (welcome_head _ _ _ (at_head_init inp sig werr) Hw) as Hhead.
    destruct (prefix_head 8 k stw st Hk Hhead Hl) as [Hs _].
    rewrite (shape_current_step _ _ _ _ Hs). repeat f_equal. lia.
  - intros inp sig werr d Hd.
    destruct (main_saveable inp sig werr) as [(done&Hle&Hs) Hdisk].
    destruct Hdisk as [Hn|Hsome]; [congruence|].
    assert (Heq : d = session_data (final (main inp sig werr))) by congruence.
    split; [exact Heq|]. rewrite <- Heq in Hs.
    exists (S done). repeat split; try lia.
    + apply (shape_current_step _ _ _ _ Hs).
    + intros j key Hj Hin. apply (shape_recorded done 1 (S done) d j key Hs); [lia|lia|exact Hin].
    + intros j key Hj Hin. apply (shape_blank done 1 (S done) d j key Hs); [lia|lia|exact Hin].
Qed.

Lemma current_step_is_next_step_witness :
  dict_lookup "current_step"
    (session_data (final (run_loop 8 1 (firstn 1 steps)
       (final (lift display_welcome (init ["2"; "1"] None None))))))
  = Some (VInt (Z.of_nat (1 + 1)))
  /\ exists d, disk (final (main ["2"; "2"] None None)) = Some d
               /\ dict_lookup "current_step" d = Some (VInt 2).
Proof.
  split.
  - apply (proj1 (proj2 current_step_is_next_step) ["2"; "1"] None None 1
                 (final (lift display_welcome (init ["2"; "1"] None None)))).
    + lia.
    + vm_compute. reflexivity.
    + vm_compute. reflexivity.
  - eexists. split; [vm_compute; reflexivity|]. reflexivity.
Defined.

(** C7, as stated, fails: once step 2 has run the record holds a tenth
    top-level key, [backend_framework_experience], which the constructor does
    not initialise.  Here the operator answers steps 1 and 2 and declines
    to go on: the snapshot's keys are not the constructor's. *)
Lemma snapshot_keys_counterexample :
  exists d, disk (final (main ["1"; "1"; "1"; "1"; "2"] None None)) = Some d
            /\ keys d = (keys init_session_data ++ [exp_key])%list
            /\ keys d <> keys init_session_data.
Proof.
  eexists. split; [vm_compute; reflexivity|].
  split; [reflexivity|]. vm_compute. discriminate.
Qed.

Lemma shape_extra_progress done slack c d :
  shape done slack c d ->
  (2 <= done ->
   keys d = (keys init_session_data ++ [exp_key])%list
   /\ exists e, dict_lookup exp_key d = Some (VStr e))
  /\ (done + slack < 2 ->
      keys d = keys init_session_data /\ dict_lookup exp_key d = None).
Proof.
  intros (a1&a2&a3&a4&a5&a6&a7&a8&ex&E&_&_&_&_&_&_&_&_&Hex&H2&H3).
  subst d. split.
  - intros Hdone. destruct Hex as [->|[e ->]].
    + exfalso. apply (H2 Hdone). reflexivity.
    + split; [reflexivity|]. exists e. reflexivity.
  - intros Hlt. rewrite (H3 Hlt). split; reflexivity.
Qed.

(** C7, amended. Whatever the run, a record found in the snapshot file has
    the nine keys of the constructor in their order, followed by
    [backend_framework_experience] exactly when that answer is recorded, and
    no other key; each constructor field of a step holds [None] or the value
    that step stores (a string for step 2, a dictionary with that step's
    fixed keys for the others).  The tenth key comes with step 2: a snapshot
    whose [current_step] is 3 or more has the ten keys, one whose
    [current_step] is 1 has the nine; during the run, once the first [k]
    steps have completed the record has ten keys if [k] is at least 2 and
    nine otherwise; and whenever step 2 returns, the record it leaves has
    the ten keys. *)
Theorem snapshot_keys :
  (forall inp sig werr (d : dict),
      disk (final (main inp sig werr)) = Some d ->
      ((keys d = keys init_session_data /\ dict_lookup exp_key d = None)
       \/ (keys d = (keys init_session_data ++ [exp_key])%list
           /\ exists e, dict_lookup exp_key d = Some (VStr e)))
      /\ (exists c : nat,
             dict_lookup "current_step" d = Some (VInt (Z.of_nat c))
             /\ (3 <= c ->
                 keys d = (keys init_session_data ++ [exp_key])%list
                 /\ exists e, dict_lookup exp_key d = Some (VStr e))
             /\ (c <= 1 ->
                 keys d = keys init_session_data
                 /\ dict_lookup exp_key d = None))
      /\ (forall j, 1 <= j <= 8 ->
                    exists a, dict_lookup (field_of j) d = Some a
                              /\ (a = VNone \/ form j a)))
  /\ (forall inp sig werr (k : nat) (stw st : state),
         k <= 8 ->
         lift display_welcome (init inp sig werr) = Normal tt stw ->
         run_loop 8 1 (firstn k steps) stw = Normal Next st ->
         (2 <= k ->
          keys (session_data st) = (keys init_session_data ++ [exp_key])%list
          /\ exists e, dict_lookup exp_key (session_data st) = Some (VStr e))
         /\ (k < 2 ->
             keys (session_data st) = keys init_session_data
             /\ dict_lookup exp_key (session_data st) = None))
  /\ (forall inp sig werr (stw st st1 : state) (b : bool),
         lift display_welcome (init inp sig werr) = Normal tt stw ->
         run_loop 8 1 (firstn 1 steps) stw = Normal Next st ->
         step_2_backend_framework st = Normal b st1 ->
         keys (session_data st1) = (keys init_session_data ++ [exp_key])%list
         /\ exists e, dict_lookup exp_key (session_data st1) = Some (VStr e)).
Proof.
  split; [|split].
  - intros inp sig werr d Hd.
    destruct (main_saveable inp sig werr) as [(done&Hle&Hs) Hdisk].
    destruct Hdisk as [Hn|Hsome]; [congruence|].
    assert (Heq : d = session_data (final (main inp sig werr))) by congruence.
    rewrite <- Heq in Hs.
    destruct (shape_extra_progress _ _ _ _ Hs) as [Hten Hnine].
    split; [|split].
    + destruct (shape_extra _ _ _ _ Hs) as [(H1&H2&_)|(H1&H2&_)];
        [left|right]; auto.
    + exists (S done). split; [apply (shape_current_step _ _ _ _ Hs)|]. split.
      * intros Hc. apply Hten. lia.
      * intros Hc. apply Hnine. lia.
    + intros j Hj. destruct (shape_field _ _ _ _ j Hj Hs) as (a&Ha&Hform&_).
      exists a. auto.
  - intros inp sig werr k stw st Hk Hw Hl.
    pose proof (welcome_head _ _ _ (at_head_init inp sig werr) Hw) as Hhead.
    destruct (prefix_head 8 k stw st Hk Hhead Hl) as [Hs _].
    destruct (shape_extra_progress _ _ _ _ Hs) as [Hten Hnine].
    split; [exact Hten|]. intros Hlt. apply Hnine. lia.
  - intros inp sig werr stw st st1 b Hw Hl Hstep.
    pose proof (welcome_head _ _ _ (at_head_init inp sig werr) Hw) as Hhead.
    pose proof (prefix_head 8 1 stw st ltac:(lia) Hhead Hl) as Hh1.
    pose proof (step_2_triple st Hh1) as Hs. rewrite Hstep in Hs.
    destruct Hs as [Hs _].
    apply (shape_extra_progress _ _ _ _ Hs). lia.
Qed.

Lemma snapshot_keys_witness :
  keys (session_data
          (final (step_2_backend_framework
                    (final (run_loop 8 1 (firstn 1 steps)
                              (final (lift display_welcome
                                        (init ["1"; "1"; "2"; "3"] None None))))))))
  = [ "frontend_tech_stack"; "backend_framework"; "llm_requirements";
      "data_format"; "api_design"; "auth_requirements"; "deployment_target";
      "communication_method"; "current_step"; "backend_framework_experience" ]
  /\ keys (session_data (final (main ["1"; "2"] None None)))
     = [ "frontend_tech_stack"; "backend_framework"; "llm_requirements";
         "data_format"; "api_design"; "auth_requirements"; "deployment_target";
         "communication_method"; "current_step" ].
Proof.
  split.
  - exact (proj1 (proj2 (proj2 snapshot_keys) ["1"; "1"; "2"; "3"] None None
             (final (lift display_welcome (init ["1"; "1"; "2"; "3"] None None)))
             (final (run_loop 8 1 (firstn 1 steps)
                       (final (lift display_welcome
                                 (init ["1"; "1"; "2"; "3"] None None)))))
             (final (step_2_backend_framework
                    (final (run_loop 8 1 (firstn 1 steps)
                              (final (lift display_welcome
                                        (init ["1"; "1"; "2"; "3"] None None)))))))
             true
             ltac:(vm_compute; reflexivity) ltac:(vm_compute; reflexivity)
             ltac:(vm_compute; reflexivity))).
  - destruct (proj1 snapshot_keys ["1"; "2"] None None
                (session_data (final (main ["1"; "2"] None None)))
                ltac:(vm_compute; reflexivity)) as ([[H _]|[H _]]&_).
    + exact H.
    + vm_compute in H. discriminate.
Defined.

(** *** The sequencer on a console without pending interrupt *)

Lemma lift_print_quiet (s : string) (st : state) :
  sigint (console_of st) = None ->
  lift (print s) st = Normal tt (printed_state st [s]).
Proof. intros H. unfold lift. now rewrite print_quiet. Qed.

Lemma lift_print_all_quiet (lines : list string) (st : state) :
  sigint (console_of st) = None ->
  lift (print_all lines) st = Normal tt (printed_state st lines).
Proof. intros H. unfold lift. now rewrite print_all_quiet. Qed.

Lemma printed_state_quiet st lines :
  sigint (console_of (printed_state st lines)) = None.
Proof. reflexivity. Qed.

Lemma printed_printed st l1 l2 :
  printed_state (printed_state st l1) l2 = printed_state st (l1 ++ l2)%list.
Proof.
  unfold printed_state, with_console. cbn. rewrite wrote_wrote, map_app.
  reflexivity.
Qed.

Lemma save_session_quiet (st : state) :
  sigint (console_of st) = None ->
  save_session st = Normal tt (saved_state st []).
Proof.
  intros H. destruct st as [sd c dk we]. cbn in H.
  unfold save_session, try_except, bind, dump_session, saved_state.
  cbn [write_error session_data console_of disk].
  destruct we as [msg|].
  - unfold lift. cbn [console_of]. now rewrite print_quiet.
  - unfold lift. cbn [console_of]. now rewrite print_quiet.
Qed.

Lemma saved_after_print (st : state) (lines : list string) :
  saved_state (printed_state st lines) [] = saved_state st lines.
Proof.
  destruct st as [sd c dk we]. unfold saved_state, printed_state, with_console.
  cbn [write_error session_data console_of disk].
  destruct we; rewrite wrote_wrote, <- map_app; reflexivity.
Qed.

Lemma pause_and_save_quiet (st : state) :
  sigint (console_of st) = None ->
  pause_and_save st = Normal Return (saved_state st review_lines).
Proof.
  intros H. unfold pause_and_save, bind, ret.
  rewrite lift_print_quiet by exact H.
  rewrite lift_print_quiet by apply printed_state_quiet.
  rewrite save_session_quiet by apply printed_state_quiet.
  now rewrite printed_printed, saved_after_print.
Qed.

Lemma on_interrupt_quiet (st : state) :
  sigint (console_of st) = None ->
  on_interrupt st = Normal Return (saved_state st [paused_line]).
Proof.
  intros H. unfold on_interrupt, bind, ret.
  rewrite lift_print_quiet by exact H.
  rewrite save_session_quiet by apply printed_state_quiet.
  now rewrite saved_after_print.
Qed.

Lemma on_error_quiet (i : nat) (msg : string) (st : state) :
  sigint (console_of st) = None ->
  on_error i msg st = Normal Return (printed_state st (error_lines i msg)).
Proof.
  intros H. unfold on_error, bind, ret.
  rewrite lift_print_quiet by exact H.
  rewrite lift_print_quiet by apply printed_state_quiet.
  now rewrite printed_printed.
Qed.

Lemma farewell_quiet (st : state) :
  sigint (console_of st) = None ->
  farewell st = Normal tt (printed_state st farewell_lines).
Proof.
  intros H. unfold farewell, bind.
  rewrite lift_print_quiet by exact H.
  rewrite lift_print_quiet by apply printed_state_quiet.
  now rewrite printed_printed.
Qed.

(** The loop over a list split in two. *)
Lemma run_loop_app (n : nat) (l1 l2 : list (M bool)) :
  forall i st,
    run_loop n i (l1 ++ l2) st =
    match run_loop n i l1 st with
    | Normal Next st' => run_loop n (i + length l1) l2 st'
    | Normal Return st' => Normal Return st'
    | Raise e st' => Raise e st'
    end.
Proof.
  induction l1 as [|step l1 IH]; intros i st.
  - cbn. now rewrite Nat.add_0_r.
  - cbn [app run_loop length]. unfold bind.
    destruct (iteration n i step st) as [[|] st1|e st1]; try reflexivity.
    rewrite IH. now rewrite Nat.add_succ_r.
Qed.

Lemma split_at {A} (l : list A) (k : nat) (x : A) :
  nth_error l k = Some x ->
  l = (firstn k l ++ x :: skipn (S k) l)%list /\ length (firstn k l) = k.
Proof.
  revert k. induction l as [|y l IH]; intros [|k] H; cbn in *; try discriminate.
  - injection H as ->. auto.
  - destruct (IH k H) as [E L]. split; [now rewrite <- E|now rewrite L].
Qed.

(** What one round does once its step has returned. *)
Lemma iteration_after_step (n i : nat) (step : M bool) (st st1 : state) (b : bool) :
  step st = Normal b st1 ->
  iteration_body n i step st =
  (if Nat.ltb i n then
     answer <- lift (ask_question continue_question continue_options true) ;;
     if contains "No" answer then pause_and_save else ret Next
   else ret Next) (advance i st1).
Proof.
  intros E. unfold iteration_body, bind at 1. rewrite E.
  unfold bind at 1. reflexivity.
Qed.

(** C10. After a step of a round that is not the last, the sequencer stops
    and saves exactly when the answer to the continue question contains
    [No]: then the round returns from [run] after [save_session]; otherwise
    the loop goes on with the next step.  The answer may be a free text
    given through choice 3, returned stripped and tested the same way. *)
Theorem continue_decided_by_substring
        (n i : nat) (step : M bool) (rest : list (M bool))
        (st st1 st2 : state) (b : bool) (answer : string) :
  i < n ->
  step st = Normal b st1 ->
  lift (ask_question continue_question continue_options true) (advance i st1)
  = Normal answer st2 ->
  (contains "No" answer = true -> sigint (console_of st2) = None ->
   run_loop n i (step :: rest) st = Normal Return (saved_state st2 review_lines))
  /\ (contains "No" answer = false ->
      run_loop n i (step :: rest) st = run_loop n (S i) rest st2)
  /\ (forall (c : console) (choice text : string) (more : list string),
         sigint c = None -> stdin c = choice :: text :: more ->
         int (strip choice) = Some 3%Z -> strip text <> EmptyString ->
         exists c', ask_question continue_question continue_options true c
                    = Normal (strip text) c').
Proof.
  intros Hlt Hstep Hask.
  assert (Hbody : iteration_body n i step st
                  = (if contains "No" answer then pause_and_save else ret Next) st2).
  { rewrite (iteration_after_step n i step st st1 b Hstep).
    apply Nat.ltb_lt in Hlt. rewrite Hlt. unfold bind. now rewrite Hask. }
  split; [|split].
  - intros Hno Hq. cbn [run_loop]. unfold bind, iteration, try_except.
    rewrite Hbody, Hno. now rewrite pause_and_save_quiet.
  - intros Hno. cbn [run_loop]. unfold bind, iteration, try_except.
    rewrite Hbody, Hno. reflexivity.
  - intros c choice text more Hq Hin Hc Ht.
    unfold ask_question, bind. rewrite ask_header_quiet by exact Hq.
    rewrite ask_loop_unroll.
    rewrite (ask_round_menu continue_options true _ choice (text :: more)
               ltac:(discriminate) (wrote_quiet _ _) Hin).
    cbv zeta. rewrite Hc. cbn [continue_options length Z.of_nat Z.leb Z.eqb
                               andb Z.add Z.compare Pos.compare Pos.compare_cont
                               Pos.of_succ_nat Pos.succ Pos.add Pos.eqb].
    rewrite (truthy_true _ Ht). eexists. reflexivity.
Qed.

Lemma continue_decided_by_substring_witness :
  run_loop 8 1 (step_1_frontend_analysis :: [step_2_backend_framework])
           (init ["1"; "3"; "Not yet"] None None)
  = Normal Return
      (saved_state
         (final (lift (ask_question continue_question continue_options true)
                      (advance 1 (final (step_1_frontend_analysis
                                           (init ["1"; "3"; "Not yet"] None None))))))
         review_lines)
  /\ contains "No" "Nope" = true /\ contains "No" "Not yet" = true
  /\ contains "No" "maybe later" = false.
Proof.
  split; [|repeat split].
  apply (proj1 (continue_decided_by_substring 8 1 step_1_frontend_analysis
                  [step_2_backend_framework]
                  (init ["1"; "3"; "Not yet"] None None)
                  (final (step_1_frontend_analysis
                            (init ["1"; "3"; "Not yet"] None None)))
                  (final (lift (ask_question continue_question continue_options true)
                      (advance 1 (final (step_1_frontend_analysis
                                           (init ["1"; "3"; "Not yet"] None None))))))
                  true "Not yet"
                  ltac:(lia) ltac:(vm_compute; reflexivity)
                  ltac:(vm_compute; reflexivity))).
  - vm_compute. reflexivity.
  - vm_compute. reflexivity.
Defined.

(** *** Exceptions in a round *)

Lemma round_fault (n i : nat) (step : M bool) (st st1 : state) (cls msg : string) :
  step st = Raise (Exc cls msg) st1 ->
  sigint (console_of st1) = None ->
  iteration n i step st = Normal Return (printed_state st1 (error_lines i msg)).
Proof.
  intros E Hq. unfold iteration, try_except, iteration_body, bind.
  rewrite E. now apply on_error_quiet.
Qed.

Lemma round_interrupt (n i : nat) (step : M bool) (st st1 : state) :
  iteration_body n i step st = Raise KeyboardInterrupt st1 ->
  sigint (console_of st1) = None ->
  iteration n i step st = Normal Return (saved_state st1 [paused_line]).
Proof.
  intros E Hq. unfold iteration, try_except. rewrite E.
  now apply on_interrupt_quiet.
Qed.

(** A run whose round [i] leaves [run] early ends in the state that round
    left. *)
Lemma run_returns_in_round (i : nat) (step : M bool) (st0 stw st st' : state) :
  1 <= i -> nth_error steps (i - 1) = Some step ->
  lift display_welcome st0 = Normal tt stw ->
  run_loop 8 1 (firstn (i - 1) steps) stw = Normal Next st ->
  iteration 8 i step st = Normal Return st' ->
  run st0 = Normal tt st'.
Proof.
  intros Hi Hnth Hw Hpre Hit.
  destruct (split_at steps (i - 1) step Hnth) as [Hsplit Hlen].
  unfold run, run_steps, try_except, run_body, bind.
  rewrite Hw. change (length steps) with 8.
  rewrite Hsplit, run_loop_app, Hpre, Hlen.
  replace (1 + (i - 1)) with i by lia.
  cbn [run_loop]. unfold bind. rewrite Hit. reflexivity.
Qed.

(** C6. If step [i] raises an exception (anything but the operator's
    interrupt), the sequencer catches it, prints the error naming step [i]
    and the reassurance line, and [run] returns: no later step runs, no plan
    is printed, and the snapshot file is left as it was ([save_session] is
    not called). *)
Theorem step_fault_aborts_without_saving
        (i : nat) (step : M bool) (st0 stw st st1 : state) (cls msg : string) :
  1 <= i <= 8 ->
  nth_error steps (i - 1) = Some step ->
  lift display_welcome st0 = Normal tt stw ->
  run_loop 8 1 (firstn (i - 1) steps) stw = Normal Next st ->
  step st = Raise (Exc cls msg) st1 ->
  sigint (console_of st1) = None ->
  run st0 = Normal tt (printed_state st1 (error_lines i msg))
  /\ disk (final (run st0)) = disk st1
  /\ session_data (final (run st0)) = session_data st1
  /\ stdout (console_of (final (run st0)))
     = (stdout (console_of st1)
        ++ [ Print (nl ++ "❌ Error in step " ++ str_nat i ++ ": " ++ msg)%string;
             Print "Don't worry, you can restart the assistant anytime!" ])%list.
Proof.
  intros Hi Hnth Hw Hpre Hstep Hq.
  assert (Hrun : run st0 = Normal tt (printed_state st1 (error_lines i msg))).
  { apply (run_returns_in_round i step st0 stw st); try assumption; [lia|].
    now apply (round_fault 8 i step st st1 cls msg). }
  rewrite Hrun. repeat split.
Qed.

Lemma step_fault_aborts_without_saving_witness :
  run (init ["1"; "1"; "2"] None None)
  = Normal tt
      (printed_state
         (final (step_2_backend_framework
                   (final (run_loop 8 1 (firstn (2 - 1) steps)
                             (final (lift display_welcome
                                       (init ["1"; "1"; "2"] None None)))))))
         (error_lines 2 "EOF when reading a line"))
  /\ disk (final (run (init ["1"; "1"; "2"] None None))) = None.
Proof.
  pose proof (step_fault_aborts_without_saving 2 step_2_backend_framework
                (init ["1"; "1"; "2"] None None)
                (final (lift display_welcome (init ["1"; "1"; "2"] None None)))
                (final (run_loop 8 1 (firstn (2 - 1) steps)
                          (final (lift display_welcome
                                    (init ["1"; "1"; "2"] None None)))))
                (final (step_2_backend_framework
                   (final (run_loop 8 1 (firstn (2 - 1) steps)
                             (final (lift display_welcome
                                       (init ["1"; "1"; "2"] None None)))))))
                "EOFError" "EOF when reading a line"
                ltac:(lia) eq_refl
                ltac:(vm_compute; reflexivity) ltac:(vm_compute; reflexivity)
                ltac:(vm_compute; reflexivity) ltac:(vm_compute; reflexivity))
    as (H1&H2&_).
  split; [exact H1|]. rewrite H2. vm_compute. reflexivity.
Defined.

(** C1, as stated, fails for the top-level handler: it prints the farewell
    and returns without calling [save_session].  An interrupt during the
    welcome banner leaves no snapshot file; so does an interrupt at the
    first line of the plan, after all eight steps have been answered. *)
Lemma interrupt_top_level_counterexample :
  main [] (Some 0) None
  = Normal tt (State init_session_data (Console [] (map Print farewell_lines) None)
                     None None)
  /\ (exists st, main all_first_choices (Some 262) None = Normal tt st
                 /\ dict_lookup "current_step" (session_data st) = Some (VInt 9)
                 /\ disk st = None
                 /\ skipn 262 (stdout (console_of st)) = map Print farewell_lines).
Proof.
  split; [vm_compute; reflexivity|].
  eexists. split; [vm_compute; reflexivity|].
  repeat split.
Qed.

(** C1, amended. An interrupt raised inside the [try] block of a round (in
    the step or in the continue question) is caught by the per-step handler,
    which prints the pause line and calls [save_session], and [run] returns:
    the file then holds the record unless it cannot be written.  An
    interrupt that leaves the outer block of [run] (raised in the welcome
    banner, or after the loop) is caught by the top-level handler, which
    prints the farewell and returns without touching the file. *)
Theorem interrupt_handlers :
  (forall (i : nat) (step : M bool) (st0 stw st st1 : state),
      1 <= i <= 8 ->
      nth_error steps (i - 1) = Some step ->
      lift display_welcome st0 = Normal tt stw ->
      run_loop 8 1 (firstn (i - 1) steps) stw = Normal Next st ->
      iteration_body 8 i step st = Raise KeyboardInterrupt st1 ->
      sigint (console_of st1) = None ->
      run st0 = Normal tt (saved_state st1 [paused_line])
      /\ (write_error st1 = None ->
          disk (final (run st0)) = Some (session_data st1)))
  /\ (forall (st0 st1 : state),
         run_body steps st0 = Raise KeyboardInterrupt st1 ->
         sigint (console_of st1) = None ->
         run st0 = Normal tt (printed_state st1 farewell_lines)
         /\ disk (final (run st0)) = disk st1).
Proof.
  split.
  - intros i step st0 stw st st1 Hi Hnth Hw Hpre Hbody Hq.
    assert (Hrun : run st0 = Normal tt (saved_state st1 [paused_line])).
    { apply (run_returns_in_round i step st0 stw st); try assumption; [lia|].
      now apply round_interrupt. }
    split; [exact Hrun|]. intros Hwe. rewrite Hrun.
    unfold saved_state. rewrite Hwe. reflexivity.
  - intros st0 st1 Hbody Hq.
    assert (Hrun : run st0 = Normal tt (printed_state st1 farewell_lines)).
    { unfold run, run_steps, try_except. rewrite Hbody.
      now apply farewell_quiet. }
    split; [exact Hrun|]. rewrite Hrun. reflexivity.
Qed.

Lemma interrupt_handlers_witness :
  (run (init ["1"; "1"] (Some 40) None)
   = Normal tt
       (saved_state
          (final (iteration_body 8 2 step_2_backend_framework
                    (final (run_loop 8 1 (firstn (2 - 1) steps)
                              (final (lift display_welcome
                                        (init ["1"; "1"] (Some 40) None)))))))
          [paused_line]))
  /\ run (init [] (Some 3) None)
     = Normal tt (printed_state (final (run_body steps (init [] (Some 3) None)))
                                farewell_lines).
Proof.
  split.
  - apply (proj1 interrupt_handlers 2 step_2_backend_framework
                 (init ["1"; "1"] (Some 40) None)
                 (final (lift display_welcome (init ["1"; "1"] (Some 40) None)))
                 (final (run_loop 8 1 (firstn (2 - 1) steps)
                           (final (lift display_welcome
                                     (init ["1"; "1"] (Some 40) None)))))
                 (final (iteration_body 8 2 step_2_backend_framework
                    (final (run_loop 8 1 (firstn (2 - 1) steps)
                              (final (lift display_welcome
                                        (init ["1"; "1"] (Some 40) None)))))))
                 ltac:(lia) eq_refl
                 ltac:(vm_compute; reflexivity) ltac:(vm_compute; reflexivity)
                 ltac:(vm_compute; reflexivity) ltac:(vm_compute; reflexivity)).
  - apply (proj2 interrupt_handlers (init [] (Some 3) None)
                 (final (run_body steps (init [] (Some 3) None)))
                 ltac:(vm_compute; reflexivity) ltac:(vm_compute; reflexivity)).
Defined.

(** *** Declining to continue *)

(** C4. For [k] of 1..7: when steps 1..[k] have run and the operator's
    answer to the continue question after step [k] contains [No], the run
    ends there: [run] returns right after printing the two review lines and
    saving, so no later step runs; every field of steps [k+1]..8 is null,
    every field of steps 1..[k] is recorded, [current_step] is [k + 1], and
    the snapshot file (when it can be written) holds exactly that record. *)
Theorem decline_stops_and_saves
        (k : nat) inp sig werr (step : M bool)
        (stw st st1 st2 : state) (b : bool) (answer : string) :
  1 <= k <= 7 ->
  nth_error steps (k - 1) = Some step ->
  lift display_welcome (init inp sig werr) = Normal tt stw ->
  run_loop 8 1 (firstn (k - 1) steps) stw = Normal Next st ->
  step st = Normal b st1 ->
  lift (ask_question continue_question continue_options true) (advance k st1)
  = Normal answer st2 ->
  contains "No" answer = true ->
  sigint (console_of st2) = None ->
  main inp sig werr = Normal tt (saved_state st2 review_lines)
  /\ session_data (final (main inp sig werr)) = session_data st2
  /\ (forall j key, k < j <= 8 -> In key (owned j) ->
                    blank key (session_data st2))
  /\ (forall j key, 1 <= j <= k -> In key (owned j) ->
                    recorded key (session_data st2))
  /\ dict_lookup "current_step" (session_data st2)
     = Some (VInt (Z.of_nat (k + 1)))
  /\ (write_error st2 = None ->
      disk (final (main inp sig werr)) = Some (session_data st2)).
Proof.
  intros Hk Hnth Hw Hpre Hstep Hask Hno Hq.
  assert (Hrun : main inp sig werr = Normal tt (saved_state st2 review_lines)).
  { apply (run_returns_in_round k step _ stw st); try assumption; [lia|].
    unfold iteration, try_except.
    rewrite (iteration_after_step 8 k step st st1 b Hstep).
    replace (Nat.ltb k 8) with true by (symmetry; apply Nat.ltb_lt; lia).
    unfold bind. rewrite Hask, Hno. now rewrite pause_and_save_quiet. }
  assert (Hhead : at_head k st2).
  { pose proof (welcome_head _ _ _ (at_head_init inp sig werr) Hw) as Hh0.
    pose proof (prefix_head 8 (k - 1) stw st ltac:(lia) Hh0 Hpre) as Hh.
    pose proof (steps_triples (k - 1) step Hnth st Hh) as Hs.
    rewrite Hstep in Hs. destruct Hs as [Hs Hd].
    pose proof (lift_frame (ask_question continue_question continue_options true)
                           (advance k st1)) as (H1&H2&_).
    rewrite Hask in H1, H2. cbn [final] in H1, H2.
    split; [|now rewrite H2].
    rewrite H1. cbn [advance session_data].
    replace (S (k - 1)) with k in Hs by lia.
    apply shape_advance, Hs. }
  destruct Hhead as [Hs Hd].
  split; [exact Hrun|]. rewrite Hrun.
  split; [unfold saved_state; destruct (write_error st2); reflexivity|].
  split; [intros j key Hj Hin;
          apply (shape_blank k 0 (S k) _ j key Hs); [lia|lia|exact Hin]|].
  split; [intros j key Hj Hin;
          apply (shape_recorded k 0 (S k) _ j key Hs); [lia|lia|exact Hin]|].
  split.
  - rewrite (shape_current_step _ _ _ _ Hs). repeat f_equal. lia.
  - intros Hwe. unfold saved_state. rewrite Hwe. reflexivity.
Qed.

Lemma decline_stops_and_saves_witness :
  main ["1"; "2"] None None
  = Normal tt
      (saved_state
         (final (lift (ask_question continue_question continue_options true)
                   (advance 1 (final (step_1_frontend_analysis
                      (final (lift display_welcome (init ["1"; "2"] None None))))))))
         review_lines)
  /\ disk (final (main ["1"; "2"] None None))
     = Some (dict_set "current_step" (VInt 2)
               (dict_set "frontend_tech_stack"
                  (VDict [ ("framework", VStr "React + Vite");
                           ("styling", VStr "Tailwind CSS");
                           ("familiarity", VStr "Very familiar - I built it") ])
                  init_session_data)).
Proof.
  pose proof (decline_stops_and_saves 1 ["1"; "2"] None None
                step_1_frontend_analysis
                (final (lift display_welcome (init ["1"; "2"] None None)))
                (final (lift display_welcome (init ["1"; "2"] None None)))
                (final (step_1_frontend_analysis
                      (final (lift display_welcome (init ["1"; "2"] None None)))))
                (final (lift (ask_question continue_question continue_options true)
                   (advance 1 (final (step_1_frontend_analysis
                      (final (lift display_welcome (init ["1"; "2"] None None))))))))
                true "No, let me review this step"
                ltac:(lia) eq_refl
                ltac:(vm_compute; reflexivity) ltac:(vm_compute; reflexivity)
                ltac:(vm_compute; reflexivity) ltac:(vm_compute; reflexivity)
                ltac:(vm_compute; reflexivity) ltac:(vm_compute; reflexivity))
    as (H1&_&_&_&_&H6).
  split; [exact H1|]. rewrite H6; vm_compute; reflexivity.
Defined.

(** *** The plan *)

Lemma bind_normal {A B} (m : M A) (f : A -> M B) (st st' : state) (a : A) :
  m st = Normal a st' -> bind m f st = f a st'.
Proof. intros E. unfold bind. now rewrite E. Qed.

Lemma next_steps_quiet (st : state) (s : string) :
  dict_lookup "backend_framework" (session_data st) = Some (VStr s) ->
  sigint (console_of st) = None ->
  generate_next_steps st = Normal tt (printed_state st (next_steps_lines s)).
Proof.
  intros Hfw Hq. unfold generate_next_steps, next_steps_lines.
  rewrite (bind_normal _ _ _ _ _ (lift_print_quiet _ st Hq)).
  unfold bind at 1, get_item, dict_get.
  cbn [session_data printed_state with_console]. rewrite Hfw.
  unfold bind at 1, py_in, ret at 1.
  set (st1 := printed_state st _).
  assert (Hq1 : sigint (console_of st1) = None) by reflexivity.
  destruct (contains "FastAPI" s).
  { rewrite (bind_normal _ _ _ _ _ (lift_print_all_quiet _ st1 Hq1)).
    rewrite lift_print_all_quiet by reflexivity.
    unfold st1. now rewrite !printed_printed. }
  unfold bind at 2, ret at 1. destruct (contains "Flask" s).
  { rewrite (bind_normal _ _ _ _ _ (lift_print_all_quiet _ st1 Hq1)).
    rewrite lift_print_all_quiet by reflexivity.
    unfold st1. now rewrite !printed_printed. }
  unfold bind at 2, ret at 1. destruct (contains "Node.js" s).
  { rewrite (bind_normal _ _ _ _ _ (lift_print_all_quiet _ st1 Hq1)).
    rewrite lift_print_all_quiet by reflexivity.
    unfold st1. now rewrite !printed_printed. }
  unfold bind, ret. rewrite lift_print_all_quiet by reflexivity.
  unfold st1. now rewrite !printed_printed.
Qed.

(** C8. With a recorded framework answer, on a console without pending
    interrupt, [generate_next_steps] returns normally.  If the answer
    contains [FastAPI] it prints the heading, the FastAPI set-up lines and
    the generic lines, and none of the Flask or Node.js lines; if the answer
    contains none of [FastAPI], [Flask], [Node.js] it prints the heading and
    the generic lines only. *)
Theorem next_steps_by_framework (st : state) (s : string) :
  dict_lookup "backend_framework" (session_data st) = Some (VStr s) ->
  sigint (console_of st) = None ->
  (contains "FastAPI" s = true ->
   generate_next_steps st
   = Normal tt (printed_state st
                  ((nl ++ "🚀 NEXT STEPS:")%string
                     :: fastapi_lines ++ generic_next_lines)%list)
   /\ forall l, In l (flask_lines ++ nodejs_lines)%list ->
                ~ In l ((nl ++ "🚀 NEXT STEPS:")%string
                          :: fastapi_lines ++ generic_next_lines)%list)
  /\ (contains "FastAPI" s = false -> contains "Flask" s = false ->
      contains "Node.js" s = false ->
      generate_next_steps st
      = Normal tt (printed_state st
                     ((nl ++ "🚀 NEXT STEPS:")%string :: generic_next_lines))).
Proof.
  intros Hfw Hq. rewrite (next_steps_quiet st s Hfw Hq). unfold next_steps_lines.
  split.
  - intros ->. split; [reflexivity|].
    intros l Hl Hin.
    assert (Hb : existsb (fun x => existsb (String.eqb x)
                                     ((nl ++ "🚀 NEXT STEPS:")%string
                                        :: fastapi_lines ++ generic_next_lines)%list)
                         (flask_lines ++ nodejs_lines)%list = true).
    { apply existsb_exists. exists l. split; [exact Hl|].
      apply existsb_exists. exists l. split; [exact Hin|apply String.eqb_refl]. }
    vm_compute in Hb. discriminate.
  - intros -> -> ->. reflexivity.
Qed.

Lemma next_steps_by_framework_witness :
  generate_next_steps
    (State (dict_set "backend_framework"
              (VStr "FastAPI (Python) - High performance, automatic API docs")
              init_session_data)
           (Console [] [] None) None None)
  = Normal tt
      (printed_state
         (State (dict_set "backend_framework"
                   (VStr "FastAPI (Python) - High performance, automatic API docs")
                   init_session_data)
                (Console [] [] None) None None)
         ((nl ++ "🚀 NEXT STEPS:")%string :: fastapi_lines ++ generic_next_lines)%list)
  /\ generate_next_steps
       (State (dict_set "backend_framework"
                 (VStr "Django (Python) - Full-featured, built-in admin, ORM")
                 init_session_data)
              (Console [] [] None) None None)
     = Normal tt
         (printed_state
            (State (dict_set "backend_framework"
                      (VStr "Django (Python) - Full-featured, built-in admin, ORM")
                      init_session_data)
                   (Console [] [] None) None None)
            ((nl ++ "🚀 NEXT STEPS:")%string :: generic_next_lines)).
Proof.
  split.
  - apply (proj1 (next_steps_by_framework
                    (State (dict_set "backend_framework"
                              (VStr "FastAPI (Python) - High performance, automatic API docs")
                              init_session_data)
                           (Console [] [] None) None None)
                    "FastAPI (Python) - High performance, automatic API docs"
                    eq_refl eq_refl)).
    vm_compute. reflexivity.
  - apply (proj2 (next_steps_by_framework
                    (State (dict_set "backend_framework"
                              (VStr "Django (Python) - Full-featured, built-in admin, ORM")
                              init_session_data)
                           (Console [] [] None) None None)
                    "Django (Python) - Full-featured, built-in admin, ORM"
                    eq_refl eq_refl)); vm_compute; reflexivity.
Defined.

Lemma plan_entry_quiet (st : state) (field l1 k1 l2 k2 x y : string) :
  dict_lookup field (session_data st) = Some (VDict [ (k1, VStr x); (k2, VStr y) ]) ->
  String.eqb k2 k1 = false ->
  sigint (console_of st) = None ->
  plan_entry field l1 k1 l2 k2 st = Normal tt (printed_state st [ l1 ++ x; l2 ++ y ]).
Proof.
  intros Hf Hk Hq. unfold plan_entry.
  unfold bind at 1, get_item, dict_get. rewrite Hf.
  unfold bind at 1, attr_get, ret at 1, dict_get.
  cbn [dict_lookup]. rewrite String.eqb_refl.
  rewrite (bind_normal _ _ _ _ _ (lift_print_quiet _ st Hq)).
  unfold bind at 1, ret at 1. rewrite Hk, String.eqb_refl. cbn [py_str].
  rewrite lift_print_quiet by reflexivity. now rewrite printed_printed.
Qed.

Ltac plan_step x y :=
  match goal with
  | |- bind (plan_entry ?f ?l1 ?k1 ?l2 ?k2) _ ?s = _ =>
      rewrite (bind_normal _ _ _ _ _
                 (plan_entry_quiet s f l1 k1 l2 k2 x y eq_refl eq_refl
                                   (printed_state_quiet _ _)))
  end.

Lemma plan_quiet (st : state)
      (fam fw ex llm vec src cpx sty rt au pv pf sc cl eh : string) :
  session_data st
  = completed_record fam fw ex llm vec src cpx sty rt au pv pf sc cl eh ->
  sigint (console_of st) = None ->
  generate_implementation_plan st
  = Normal tt (printed_state st
                 (plan_lines fw llm vec src cpx sty rt au pv pf sc
                    ++ next_steps_lines fw)%list).
Proof.
  intros Hsd Hq. destruct st as [sd c dk we].
  cbn [session_data console_of] in Hsd, Hq. subst sd.
  set (rec := completed_record fam fw ex llm vec src cpx sty rt au pv pf sc cl eh).
  unfold generate_implementation_plan.
  rewrite (bind_normal _ _ _ _ _ (lift_print_quiet _ (State rec c dk we) Hq)).
  rewrite (bind_normal _ _ _ _ _ (lift_print_quiet _ _ (printed_state_quiet _ _))).
  rewrite (bind_normal _ _ _ _ _ (lift_print_quiet _ _ (printed_state_quiet _ _))).
  rewrite !printed_printed.
  unfold bind at 1, get_item.
  change (dict_get "backend_framework" not_specified
            (session_data (printed_state (State rec c dk we) _)))
    with (VStr fw). cbn [py_str].
  rewrite (bind_normal _ _ _ _ _ (lift_print_quiet _ _ (printed_state_quiet _ _))).
  rewrite !printed_printed.
  plan_step llm vec.
  rewrite !printed_printed.
  plan_step src cpx.
  rewrite !printed_printed.
  plan_step sty rt.
  rewrite !printed_printed.
  plan_step au pv.
  rewrite !printed_printed.
  plan_step pf sc.
  rewrite !printed_printed.
  rewrite (bind_normal _ _ _ _ _ (lift_print_quiet _ _ (printed_state_quiet _ _))).
  rewrite (bind_normal _ _ _ _ _ (lift_print_quiet _ _ (printed_state_quiet _ _))).
  rewrite !printed_printed.
  match goal with
  | |- generate_next_steps ?s = _ =>
      rewrite (next_steps_quiet s fw eq_refl (printed_state_quiet _ _))
  end.
  rewrite !printed_printed. reflexivity.
Qed.

Lemma shape_completed (d : dict) :
  shape 8 0 9 d ->
  exists fam fw ex llm vec src cpx sty rt au pv pf sc cl eh,
    d = completed_record fam fw ex llm vec src cpx sty rt au pv pf sc cl eh.
Proof.
  intros (a1&a2&a3&a4&a5&a6&a7&a8&x&E&S1&S2&S3&S4&S5&S6&S7&S8&Sx).
  destruct S1 as (_&[fam ->]&_); [lia|]. destruct S2 as (_&[fw ->]&_); [lia|].
  destruct S3 as (_&(llm&vec&->)&_); [lia|].
  destruct S4 as (_&(src&cpx&->)&_); [lia|].
  destruct S5 as (_&(sty&rt&->)&_); [lia|].
  destruct S6 as (_&(au&pv&->)&_); [lia|].
  destruct S7 as (_&(pf&sc&->)&_); [lia|].
  destruct S8 as (_&(cl&eh&->)&_); [lia|].
  destruct Sx as ([->|[ex ->]]&Hne&_); [exfalso; apply Hne; [lia|reflexivity]|].
  exists fam, fw, ex, llm, vec, src, cpx, sty, rt, au, pv, pf, sc, cl, eh.
  exact E.
Qed.

(** C5, as stated, fails on "lists each recorded field": the plan prints
    the answers of steps 2 to 7 only.  In this complete run the operator
    gives a free-text HTTP client in step 8; it is recorded, and neither it
    nor the familiarity answer of step 1 nor the experience answer of step 2
    occurs in any line of the plan. *)
Lemma plan_omits_fields_counterexample :
  let inp := (repeat "1" 20 ++ ["5"; "carrier pigeon"; "1"])%list in
  let r := (lift display_welcome ;; run_loop 8 1 steps) (init inp None None) in
  exists st st',
    r = Normal Next st
    /\ dict_lookup "communication_method" (session_data st)
       = Some (VDict [ ("client", VStr "carrier pigeon");
                       ("error_handling", VStr "Basic - Simple try/catch blocks") ])
    /\ dict_lookup "current_step" (session_data st) = Some (VInt 9)
    /\ generate_implementation_plan st = Normal tt st'
    /\ mentions "carrier pigeon" (newly_printed st st') = false
    /\ mentions "Very familiar - I built it" (newly_printed st st') = false
    /\ mentions "Expert - I've built production applications"
                (newly_printed st st') = false
    /\ mentions "Not specified" (newly_printed st st') = false.
Proof.
  cbv zeta. eexists. eexists.
  split; [vm_compute; reflexivity|].
  split; [reflexivity|]. split; [reflexivity|].
  split; [vm_compute; reflexivity|].
  repeat split; vm_compute; reflexivity.
Qed.

(** C5, amended. When all eight steps have run and the operator went on
    after each of steps 1..7, the loop ends with a record in which every
    field holds an answer, [current_step] is 9 and nothing has been written
    to the file yet; on a console without pending interrupt the plan then
    prints, with their labels, the recorded framework, LLM and vector
    database, data source and complexity, API style and real-time choice,
    authentication and privacy level, platform and scale, each as recorded
    (no placeholder), followed by the next-steps lines.  The familiarity,
    experience and communication answers are recorded but not printed. *)
Theorem full_run_plan inp sig werr (stw st : state) :
  lift display_welcome (init inp sig werr) = Normal tt stw ->
  run_loop 8 1 steps stw = Normal Next st ->
  exists fam fw ex llm vec src cpx sty rt au pv pf sc cl eh,
    session_data st
    = completed_record fam fw ex llm vec src cpx sty rt au pv pf sc cl eh
    /\ disk st = None
    /\ (sigint (console_of st) = None ->
        generate_implementation_plan st
        = Normal tt
            (printed_state st
               (plan_lines fw llm vec src cpx sty rt au pv pf sc
                  ++ next_steps_lines fw)%list)).
Proof.
  intros Hw Hloop.
  pose proof (welcome_head _ _ _ (at_head_init inp sig werr) Hw) as Hh0.
  destruct (prefix_head 8 8 stw st (le_n 8) Hh0 Hloop) as [Hs Hd].
  destruct (shape_completed _ Hs)
    as (fam&fw&ex&llm&vec&src&cpx&sty&rt&au&pv&pf&sc&cl&eh&E).
  exists fam, fw, ex, llm, vec, src, cpx, sty, rt, au, pv, pf, sc, cl, eh.
  split; [exact E|]. split; [exact Hd|].
  intros Hq. now apply plan_quiet with (fam := fam) (ex := ex) (cl := cl) (eh := eh).
Qed.

Lemma full_run_plan_witness :
  exists fam fw ex llm vec src cpx sty rt au pv pf sc cl eh,
    session_data (final (run_loop 8 1 steps
                    (final (lift display_welcome (init all_first_choices None None)))))
    = completed_record fam fw ex llm vec src cpx sty rt au pv pf sc cl eh.
Proof.
  destruct (full_run_plan all_first_choices None None
              (final (lift display_welcome (init all_first_choices None None)))
              (final (run_loop 8 1 steps
                    (final (lift display_welcome (init all_first_choices None None)))))
              ltac:(vm_compute; reflexivity) ltac:(vm_compute; reflexivity))
    as (fam&fw&ex&llm&vec&src&cpx&sty&rt&au&pv&pf&sc&cl&eh&E&_).
  exists fam, fw, ex, llm, vec, src, cpx, sty, rt, au, pv, pf, sc, cl, eh.
  exact E.
Defined.

(* ================================================================== *)
(** * Further properties of the code *)

(** ** [ask_question]: the free-text mode and its answers *)

Lemma ask_round_free_text (allow_custom : bool) (c : console)
      (line : string) (rest : list string) :
  sigint c = None -> stdin c = line :: rest ->
  ask_round [] allow_custom c =
  let c1 := Console rest (stdout c ++ [Prompt answer_prompt]) None in
  if truthy (strip line) then Normal (Some (strip line)) c1
  else Normal None (wrote c1 [Print "❌ Please provide an answer."]).
Proof.
  intros Hq Hin. unfold ask_round, bind.
  rewrite (input_quiet answer_prompt line rest c Hq Hin).
  destruct (truthy (strip line)); [reflexivity|].
  now rewrite print_quiet.
Qed.

Lemma ask_loop_blanks (allow_custom : bool) (blanks : list string) :
  Forall (fun b => strip b = EmptyString) blanks ->
  forall (c : console) (more : list string),
    sigint c = None -> stdin c = (blanks ++ more)%list ->
    ask_loop [] allow_custom c
    = ask_loop [] allow_custom
               (Console more (stdout c ++ blank_rounds blanks) None).
Proof.
  induction 1 as [|b blanks Hb _ IH]; intros c more Hq Hin.
  - cbn in *. rewrite app_nil_r. destruct c as [i o s]; cbn in *. now subst.
  - rewrite ask_loop_unroll.
    rewrite (ask_round_free_text allow_custom c b (blanks ++ more) Hq Hin).
    cbv zeta. rewrite Hb. cbn [truthy].
    match goal with
    | |- ask_loop _ _ ?c1 = _ => rewrite (IH c1 more eq_refl eq_refl)
    end.
    unfold wrote; cbn [stdout stdin sigint blank_rounds flat_map].
    rewrite <- !app_assoc. reflexivity.
Qed.

(** X1. Without options, on a console without pending interrupt,
    [ask_question] answers every line that is empty once stripped with the
    complaint and a new prompt, and returns the first other line, stripped;
    it echoes nothing and reads no further.  The line returned is taken
    ASCII, where [strip] is Python's. *)
Theorem ask_question_free_text
        (question : string) (allow_custom : bool) (c : console)
        (blanks : list string) (line : string) (rest : list string) :
  sigint c = None ->
  stdin c = (blanks ++ line :: rest)%list ->
  Forall (fun b => strip b = EmptyString) blanks ->
  ascii_only line = true ->
  strip line <> EmptyString ->
  ask_question question [] allow_custom c
  = Normal (strip line)
      (Console rest
         (stdout c ++ [Print (nl ++ "📋 " ++ question)%string]
            ++ blank_rounds blanks ++ [Prompt answer_prompt])%list
         None).
Proof.
  intros Hq Hin Hb _ Hl. unfold ask_question, bind.
  rewrite ask_header_quiet by exact Hq. cbn [header_lines map].
  rewrite (ask_loop_blanks allow_custom blanks Hb _ (line :: rest)
             (wrote_quiet _ _) Hin).
  rewrite ask_loop_unroll.
  match goal with
  | |- context [ask_round _ _ ?c1] =>
      rewrite (ask_round_free_text allow_custom c1 line rest eq_refl eq_refl)
  end.
  cbv zeta. rewrite (truthy_true _ Hl).
  unfold wrote; cbn [stdout stdin sigint]. rewrite <- !app_assoc. reflexivity.
Qed.

Lemma ask_question_free_text_witness :
  ask_question "Name?" [] true (Console [EmptyString; "   "; " Ada "; "x"] [] None)
  = Normal "Ada"
      (Console ["x"]
         [ Print (nl ++ "📋 Name?")%string;
           Prompt answer_prompt; Print "❌ Please provide an answer.";
           Prompt answer_prompt; Print "❌ Please provide an answer.";
           Prompt answer_prompt ]
         None).
Proof.
  apply (ask_question_free_text "Name?" true
           (Console [EmptyString; "   "; " Ada "; "x"] [] None)
           [EmptyString; "   "] " Ada " ["x"] eq_refl eq_refl).
  - repeat constructor.
  - reflexivity.
  - vm_compute. discriminate.
Defined.

(** An answer returned by a round of the loop. *)
Lemma ask_round_answer (options : list string) (allow_custom : bool)
      (c c' : console) (a : string) :
  ask_round options allow_custom c = Normal (Some a) c' ->
  match options with
  | [] => a <> EmptyString
  | _ => In a options \/ (allow_custom = true /\ a <> EmptyString)
  end.
Proof.
  unfold ask_round. destruct options as [|o os].
  - unfold bind. destruct (input answer_prompt c) as [l c1|]; [|discriminate].
    destruct (truthy (strip l)) eqn:T.
    + unfold ret. intros E; injection E as <- _.
      destruct (strip l); [discriminate|discriminate].
    + destruct (print _ c1); discriminate.
  - unfold bind at 1. destruct (input choice_prompt c) as [l c1|]; [|discriminate].
    destruct (int (strip l)) as [k|].
    + destruct ((1 <=? k) && (k <=? Z.of_nat (length (o :: os))))%Z eqn:R.
      * unfold bind, ret. destruct (print _ c1); [|discriminate].
        intros E; injection E as <- _. left.
        apply andb_true_iff in R. destruct R as [R1 R2].
        apply Z.leb_le in R1, R2.
        exact (@nth_In string (Z.to_nat (k - 1)) (o :: os) EmptyString
                       ltac:(lia)).
      * destruct (allow_custom && (k =? Z.of_nat (length (o :: os)) + 1)%Z)%bool eqn:C.
        -- unfold bind. destruct (input specify_prompt c1) as [l2 c2|]; [|discriminate].
           destruct (truthy (strip l2)) eqn:T.
           ++ destruct (print _ c2); [|discriminate]. unfold ret.
              intros E; injection E as <- _. right.
              apply andb_true_iff in C. destruct C as [-> _]. split; [reflexivity|].
              destruct (strip l2); discriminate.
           ++ discriminate.
        -- unfold bind. destruct (print _ c1); discriminate.
    + unfold bind. destruct (print _ c1); discriminate.
Qed.

(** X2. Whatever the console holds (any lines, any pending interrupt), an
    answer [ask_question] returns is never made up: with options it is one
    of them, or, when custom answers are allowed, a non-empty text; without
    options it is a non-empty text. *)
Theorem ask_question_answer_sound
        (question : string) (options : list string) (allow_custom : bool)
        (c c' : console) (a : string) :
  ask_question question options allow_custom c = Normal a c' ->
  match options with
  | [] => a <> EmptyString
  | _ => In a options \/ (allow_custom = true /\ a <> EmptyString)
  end.
Proof.
  unfold ask_question, bind.
  destruct (ask_header question options allow_custom c) as [u c0|]; [|discriminate].
  unfold ask_loop. intros E.
  destruct (while_input_outcome (ask_round options allow_custom)
              (ask_round_reads options allow_custom) c0)
    as [(a0&c1&c2&E1&E2)|(e&c1&c2&E1&_)]; [|congruence].
  rewrite E in E1. injection E1 as -> _.
  apply (ask_round_answer options allow_custom c1 c2 a0 E2).
Qed.

Lemma ask_question_answer_sound_witness :
  In "No, let me review this step" continue_options
  \/ (false = true /\ "No, let me review this step" <> EmptyString).
Proof.
  apply (ask_question_answer_sound continue_question continue_options false
           (Console ["7"; "x"; "2"] [] (Some 30))
           (final (ask_question continue_question continue_options false
                     (Console ["7"; "x"; "2"] [] (Some 30))))).
  vm_compute. reflexivity.
Defined.

(** X4. With custom answers not allowed, the menu has no "Other" line and
    the choice [N+1] is an invalid choice like any other number outside
    [[1, N]]: it is reported and the loop goes round again, no free text is
    asked for. *)
Theorem ask_question_no_custom
        (question : string) (options : list string) (c : console)
        (line : string) (rest : list string) :
  options <> [] -> sigint c = None -> stdin c = line :: rest ->
  int (strip line) = Some (Z.of_nat (length options) + 1)%Z ->
  header_lines question options false
  = ((nl ++ "📋 " ++ question)%string
       :: (nl ++ "Available options:")%string :: option_lines 1 options)
  /\ ask_question question options false c
     = ask_loop options false
         (Console rest
            (stdout c ++ map Print (header_lines question options false)
               ++ [ Prompt choice_prompt;
                    Print "❌ Invalid choice. Please try again." ])%list
            None).
Proof.
  intros Hne Hq Hin Hk. split.
  - unfold header_lines. destruct options; [congruence|].
    now rewrite app_nil_r.
  - unfold ask_question, bind. rewrite ask_header_quiet by exact Hq.
    rewrite ask_loop_unroll.
    rewrite (ask_round_menu options false _ line rest Hne (wrote_quiet _ _) Hin).
    cbv zeta. rewrite Hk.
    replace ((1 <=? Z.of_nat (length options) + 1)
             && (Z.of_nat (length options) + 1 <=? Z.of_nat (length options)))%Z
      with false by (symmetry; apply andb_false_iff; right; apply Z.leb_gt; lia).
    cbn [andb]. unfold wrote; cbn [stdout stdin sigint].
    rewrite <- !app_assoc. reflexivity.
Qed.

Lemma ask_question_no_custom_witness :
  ask_question continue_question continue_options false (Console ["3"; "1"] [] None)
  = ask_loop continue_options false
      (Console ["1"]
         ([] ++ map Print (header_lines continue_question continue_options false)
             ++ [ Prompt choice_prompt;
                  Print "❌ Invalid choice. Please try again." ])%list
         None).
Proof.
  apply (proj2 (ask_question_no_custom continue_question continue_options
                  (Console ["3"; "1"] [] None) "3" ["1"]
                  ltac:(discriminate) eq_refl eq_refl eq_refl)).
Defined.

(** ** The steps and the record *)

Lemma dict_lookup_set_other (k k' : string) (v : value) (d : dict) :
  k <> k' -> dict_lookup k (dict_set k' v d) = dict_lookup k d.
Proof.
  intros Hne. induction d as [|[k0 v0] d IH]; cbn.
  - apply String.eqb_neq in Hne. now rewrite Hne.
  - destruct (String.eqb k' k0) eqn:E; cbn.
    + apply String.eqb_eq in E. subst k0.
      apply String.eqb_neq in Hne. now rewrite Hne.
    + now rewrite IH.
Qed.

Ltac frame_step st :=
  destruct st as [sd c dk we];
  cbv beta iota delta [bind lift ret set_item with_console
                       session_data console_of disk write_error];
  run_console;
  unfold untouched; cbn [final session_data disk write_error];
  repeat split;
  rewrite ?dict_lookup_set_other; try reflexivity.

(** X5. Each of the eight steps, however it ends (it returns, the input
    ends, the operator interrupts), leaves every field it does not own as it
    was, and never touches the snapshot file. *)
Theorem steps_touch_own_fields (j : nat) (step : M bool) (st : state)
        (key : string) :
  nth_error steps j = Some step ->
  ~ In key (owned (S j)) ->
  untouched key st (final (step st)).
Proof.
  intros H Hkey.
  do 8 (destruct j as [|j];
        [injection H as <-;
         match goal with
         | |- untouched _ _ (final (?s _)) => unfold s
         end;
         frame_step st;
         intros ->; apply Hkey; cbn; auto|]).
  destruct j; discriminate.
Qed.

Lemma steps_touch_own_fields_witness :
  untouched "frontend_tech_stack" (init ["9"; "2"] (Some 7) None)
            (final (step_2_backend_framework (init ["9"; "2"] (Some 7) None))).
Proof.
  apply (steps_touch_own_fields 1 step_2_backend_framework
           (init ["9"; "2"] (Some 7) None) "frontend_tech_stack" eq_refl).
  cbn. intros [H|[H|[]]]; discriminate.
Defined.

(** ** [save_session] *)

(** X6. With no interrupt pending, [save_session] returns whatever the
    outcome of the write and never changes the record.  When the file cannot
    be opened the exception is caught: the file is left as it was and a
    warning with the error's text is the one line printed.  When the write
    succeeds the file holds the record and the confirmation is the one line
    printed. *)
Theorem save_session_outcomes (st : state) :
  sigint (console_of st) = None ->
  exists st',
    save_session st = Normal tt st'
    /\ session_data st' = session_data st
    /\ (forall msg, write_error st = Some msg ->
          disk st' = disk st
          /\ stdout (console_of st')
             = (stdout (console_of st)
                  ++ [ Print ("⚠️ Could not save session: " ++ msg)%string ])%list)
    /\ (write_error st = None ->
          disk st' = Some (session_data st)
          /\ stdout (console_of st')
             = (stdout (console_of st)
                  ++ [ Print (nl ++ "💾 Session saved to backend_assistant_session.json")%string ])%list).
Proof.
  intros Hq. destruct st as [sd c dk we]. cbn [console_of] in Hq.
  destruct we as [msg|];
    cbv beta iota delta [save_session try_except bind dump_session lift raise
                         with_console write_error session_data console_of disk];
    rewrite print_quiet by exact Hq;
    eexists; (split; [reflexivity|]);
    cbn [session_data disk console_of wrote stdout];
    (split; [reflexivity|]); split.
  - intros m H; injection H as <-. split; reflexivity.
  - discriminate.
  - discriminate.
  - intros _. split; reflexivity.
Qed.

Lemma save_session_outcomes_witness :
  exists st',
    save_session (State init_session_data (Console ["x"] [] None)
                        None (Some "Permission denied"))
    = Normal tt st'
    /\ disk st' = None
    /\ stdout (console_of st')
       = [ Print "⚠️ Could not save session: Permission denied" ].
Proof.
  destruct (save_session_outcomes
              (State init_session_data (Console ["x"] [] None)
                     None (Some "Permission denied")) eq_refl)
    as (st'&H1&_&H3&_).
  exists st'. split; [exact H1|].
  exact (H3 "Permission denied" eq_refl).
Defined.

(** ** More of the sequencer *)

Lemma dict_lookup_set_same (k : string) (v : value) (d : dict) :
  dict_lookup k (dict_set k v d) = Some v.
Proof.
  induction d as [|[k0 v0] d IH]; cbn.
  - now rewrite String.eqb_refl.
  - destruct (String.eqb k k0) eqn:E; cbn.
    + now rewrite String.eqb_refl.
    + now rewrite E.
Qed.

(** X8. When the continue question after step [i] fails with an exception
    (the input ends there), the sequencer reports it as an error "in step
    [i]" although that step has returned: [current_step] already holds
    [i + 1], the step's answers stay in memory only, the file is not
    written, and [run] returns. *)
Theorem continue_question_fault
        (i : nat) (step : M bool) (st0 stw st st1 st2 : state) (b : bool)
        (cls msg : string) :
  1 <= i <= 7 ->
  nth_error steps (i - 1) = Some step ->
  lift display_welcome st0 = Normal tt stw ->
  run_loop 8 1 (firstn (i - 1) steps) stw = Normal Next st ->
  step st = Normal b st1 ->
  lift (ask_question continue_question continue_options true) (advance i st1)
  = Raise (Exc cls msg) st2 ->
  sigint (console_of st2) = None ->
  run st0 = Normal tt (printed_state st2 (error_lines i msg))
  /\ dict_lookup "current_step" (session_data (final (run st0)))
     = Some (VInt (Z.of_nat (i + 1)))
  /\ disk (final (run st0)) = disk st1.
Proof.
  intros Hi Hnth Hw Hpre Hstep Hask Hq.
  assert (Hrun : run st0 = Normal tt (printed_state st2 (error_lines i msg))).
  { apply (run_returns_in_round i step st0 stw st); try assumption; [lia|].
    unfold iteration, try_except.
    rewrite (iteration_after_step 8 i step st st1 b Hstep).
    replace (Nat.ltb i 8) with true by (symmetry; apply Nat.ltb_lt; lia).
    unfold bind. rewrite Hask. now apply on_error_quiet. }
  pose proof (lift_frame (ask_question continue_question continue_options true)
                         (advance i st1)) as (H1&H2&_).
  rewrite Hask in H1, H2. cbn [final] in H1, H2.
  rewrite Hrun. cbn [final printed_state with_console session_data disk].
  split; [reflexivity|]. split.
  - rewrite H1. cbn [advance session_data]. apply dict_lookup_set_same.
  - rewrite H2. reflexivity.
Qed.

Lemma continue_question_fault_witness :
  run (init ["2"] None None)
  = Normal tt
      (printed_state
         (final (lift (ask_question continue_question continue_options true)
                   (advance 1 (final (step_1_frontend_analysis
                      (final (lift display_welcome (init ["2"] None None))))))))
         (error_lines 1 "EOF when reading a line"))
  /\ disk (final (run (init ["2"] None None))) = None.
Proof.
  pose proof (continue_question_fault 1 step_1_frontend_analysis
                (init ["2"] None None)
                (final (lift display_welcome (init ["2"] None None)))
                (final (lift display_welcome (init ["2"] None None)))
                (final (step_1_frontend_analysis
                      (final (lift display_welcome (init ["2"] None None)))))
                (final (lift (ask_question continue_question continue_options true)
                   (advance 1 (final (step_1_frontend_analysis
                      (final (lift display_welcome (init ["2"] None None))))))))
                true "EOFError" "EOF when reading a line"
                ltac:(lia) eq_refl
                ltac:(vm_compute; reflexivity) ltac:(vm_compute; reflexivity)
                ltac:(vm_compute; reflexivity) ltac:(vm_compute; reflexivity)
                ltac:(vm_compute; reflexivity))
    as (H1&_&H3).
  split; [exact H1|]. rewrite H3. vm_compute. reflexivity.
Defined.

Lemma saved_state_quiet st lines :
  sigint (console_of (saved_state st lines)) = None.
Proof. unfold saved_state. destruct (write_error st); reflexivity. Qed.

(** X9. A run in which all eight steps complete, with no interrupt pending
    afterwards, prints the plan for the recorded answers, calls
    [save_session] and prints the two congratulation lines.  If the file can
    be written it then holds the complete record; if not, the failure is
    reported as a warning, the file is not written, and the run ends in the
    same normal way. *)
Theorem complete_run inp sig werr (stw st : state) :
  lift display_welcome (init inp sig werr) = Normal tt stw ->
  run_loop 8 1 steps stw = Normal Next st ->
  sigint (console_of st) = None ->
  exists fam fw ex llm vec src cpx sty rt au pv pf sc cl eh,
    session_data st
    = completed_record fam fw ex llm vec src cpx sty rt au pv pf sc cl eh
    /\ main inp sig werr
       = Normal tt
           (printed_state
              (saved_state st (plan_lines fw llm vec src cpx sty rt au pv pf sc
                                 ++ next_steps_lines fw)%list)
              congratulation_lines)
    /\ (write_error st = None ->
        disk (final (main inp sig werr)) = Some (session_data st))
    /\ (forall msg, write_error st = Some msg ->
                    disk (final (main inp sig werr)) = None
                    /\ In (Print ("⚠️ Could not save session: " ++ msg)%string)
                          (stdout (console_of (final (main inp sig werr))))).
Proof.
  intros Hw Hloop Hq.
  pose proof (welcome_head _ _ _ (at_head_init inp sig werr) Hw) as Hh0.
  destruct (prefix_head 8 8 stw st (le_n 8) Hh0 Hloop) as [Hs Hd].
  destruct (shape_completed _ Hs)
    as (fam&fw&ex&llm&vec&src&cpx&sty&rt&au&pv&pf&sc&cl&eh&E).
  exists fam, fw, ex, llm, vec, src, cpx, sty, rt, au, pv, pf, sc, cl, eh.
  split; [exact E|].
  set (lines := (plan_lines fw llm vec src cpx sty rt au pv pf sc
                   ++ next_steps_lines fw)%list).
  assert (Hrun : main inp sig werr
                 = Normal tt (printed_state (saved_state st lines)
                                            congratulation_lines)).
  { unfold main, run, run_steps, try_except, run_body, bind.
    rewrite Hw. change (length steps) with 8. rewrite Hloop.
    unfold finish, bind.
    rewrite (plan_quiet st fam fw ex llm vec src cpx sty rt au pv pf sc cl eh E Hq).
    fold lines.
    rewrite save_session_quiet by apply printed_state_quiet.
    rewrite saved_after_print.
    rewrite lift_print_quiet by apply saved_state_quiet.
    rewrite lift_print_quiet by apply printed_state_quiet.
    rewrite printed_printed. reflexivity. }
  split; [exact Hrun|]. rewrite Hrun. split.
  - intros Hwe. unfold saved_state. rewrite Hwe. reflexivity.
  - intros msg Hwe. unfold saved_state. rewrite Hwe, Hd.
    split; [reflexivity|].
    cbn [final printed_state with_console console_of wrote stdout].
    rewrite !map_app. apply in_or_app. left. apply in_or_app. right.
    apply in_or_app. right. left. reflexivity.
Qed.

Lemma complete_run_witness :
  disk (final (main all_first_choices None (Some "Permission denied"))) = None
  /\ In (Print ("⚠️ Could not save session: " ++ "Permission denied")%string)
        (stdout (console_of
                   (final (main all_first_choices None (Some "Permission denied"))))).
Proof.
  destruct (complete_run all_first_choices None (Some "Permission denied")
              (final (lift display_welcome
                        (init all_first_choices None (Some "Permission denied"))))
              (final (run_loop 8 1 steps
                 (final (lift display_welcome
                           (init all_first_choices None (Some "Permission denied"))))))
              ltac:(vm_compute; reflexivity) ltac:(vm_compute; reflexivity)
              ltac:(vm_compute; reflexivity))
    as (fam&fw&ex&llm&vec&src&cpx&sty&rt&au&pv&pf&sc&cl&eh&_&_&_&H).
  apply (H "Permission denied"). vm_compute. reflexivity.
Defined.

(** ** Step 2 *)

Lemma ask_question_pick (question : string) (options : list string)
      (c : console) (line : string) (rest : list string) (k : Z) :
  options <> [] -> sigint c = None -> stdin c = line :: rest ->
  int (strip line) = Some k -> (1 <= k <= Z.of_nat (length options))%Z ->
  exists out,
    ask_question question options true c
    = Normal (nth (Z.to_nat (k - 1)) options EmptyString)
             (Console rest (stdout c ++ out) None).
Proof.
  intros Hne Hq Hin Hk Hr. unfold ask_question, bind.
  rewrite ask_header_quiet by exact Hq. rewrite ask_loop_unroll.
  rewrite (ask_round_menu options true _ line rest Hne (wrote_quiet _ _) Hin).
  cbv zeta. rewrite Hk.
  replace ((1 <=? k) && (k <=? Z.of_nat (length options)))%Z with true
    by (symmetry; apply andb_true_iff; split; apply Z.leb_le; lia).
  unfold wrote; cbn [stdout stdin sigint]. rewrite <- !app_assoc.
  eexists. reflexivity.
Qed.

Lemma explain_framework_benefits_quiet (framework : string) (c : console) :
  sigint c = None ->
  explain_framework_benefits framework c
  = Normal tt (wrote c (map Print (benefit_lines framework))).
Proof.
  intros Hq. unfold explain_framework_benefits, benefit_lines.
  destruct (assoc (split_first framework) benefits) as [bs|].
  - unfold bind. rewrite print_quiet by exact Hq.
    rewrite print_all_quiet by apply wrote_quiet. now rewrite wrote_wrote.
  - unfold ret. now rewrite wrote_nil.
Qed.

(** X10. In step 2, on a console without pending interrupt, two valid menu
    choices are read from two lines and recorded: the chosen framework label
    under [backend_framework], the chosen experience label under the added
    key [backend_framework_experience]; the benefits of the framework are
    printed for each of the four menu entries; nothing else of the record
    and nothing of the file changes. *)
Theorem step_2_records_choices
        (st : state) (line1 line2 : string) (rest : list string) (k1 k2 : Z) :
  sigint (console_of st) = None ->
  stdin (console_of st) = line1 :: line2 :: rest ->
  int (strip line1) = Some k1 -> (1 <= k1 <= 4)%Z ->
  int (strip line2) = Some k2 -> (1 <= k2 <= 3)%Z ->
  let fw := nth (Z.to_nat (k1 - 1)) framework_options EmptyString in
  let xp := nth (Z.to_nat (k2 - 1)) experience_options EmptyString in
  exists st',
    step_2_backend_framework st = Normal true st'
    /\ session_data st'
       = dict_set exp_key (VStr xp)
           (dict_set "backend_framework" (VStr fw) (session_data st))
    /\ stdin (console_of st') = rest
    /\ sigint (console_of st') = None
    /\ disk st' = disk st
    /\ In (Print (nl ++ "✅ Great choice! " ++ split_first fw ++ " benefits:")%string)
          (stdout (console_of st')).
Proof.
  intros Hq Hin Hk1 Hr1 Hk2 Hr2 fw xp.
  destruct st as [sd c dk we]. cbn [console_of] in Hq, Hin.
  unfold step_2_backend_framework.
  rewrite (bind_normal _ _ _ _ _ (lift_print_all_quiet _ (State sd c dk we) Hq)).
  unfold printed_state, with_console, lift at 1, bind at 1.
  cbn [console_of session_data disk write_error].
  destruct (ask_question_pick "Which backend framework would you prefer?"
              framework_options (wrote c (map Print
                 [ (nl ++ "🔧 STEP 2: Backend Framework Selection")%string;
                   "Let's choose the best backend framework for your needs." ]))
              line1 (line2 :: rest) k1
              ltac:(discriminate) eq_refl Hin Hk1 Hr1) as [out1 E1].
  fold framework_options. rewrite E1. fold fw.
  unfold bind at 1, set_item at 1.
  cbn [console_of session_data disk write_error].
  unfold bind at 1, lift at 1. cbn [console_of].
  rewrite explain_framework_benefits_quiet by reflexivity.
  unfold with_console, bind at 1, lift at 1.
  cbn [console_of session_data disk write_error].
  destruct (ask_question_pick "What's your experience level with this framework?"
              experience_options
              (wrote (Console (line2 :: rest)
                        (stdout (wrote c (map Print
                           [ (nl ++ "🔧 STEP 2: Backend Framework Selection")%string;
                             "Let's choose the best backend framework for your needs." ]))
                           ++ out1) None)
                     (map Print (benefit_lines fw)))
              line2 rest k2
              ltac:(discriminate) eq_refl eq_refl Hk2 Hr2) as [out2 E2].
  fold experience_options. rewrite E2. fold xp.
  unfold bind, set_item, ret. cbn [console_of session_data disk write_error].
  eexists. split; [reflexivity|].
  cbn [session_data console_of stdin sigint disk stdout wrote].
  repeat split.
  apply in_or_app. left. apply in_or_app. right. apply in_map.
  unfold benefit_lines.
  assert (Hc : k1 = 1%Z \/ k1 = 2%Z \/ k1 = 3%Z \/ k1 = 4%Z) by lia.
  subst fw. destruct Hc as [H|[H|[H|H]]]; rewrite H; left; reflexivity.
Qed.

Lemma step_2_records_choices_witness :
  exists st',
    step_2_backend_framework (init [" 4"; "2 "; "x"] None None) = Normal true st'
    /\ session_data st'
       = dict_set exp_key (VStr "Intermediate - I've built some projects")
           (dict_set "backend_framework"
              (VStr "Django (Python) - Full-featured, built-in admin, ORM")
              init_session_data)
    /\ stdin (console_of st') = ["x"].
Proof.
  destruct (step_2_records_choices (init [" 4"; "2 "; "x"] None None)
              " 4" "2 " ["x"] 4 2 eq_refl eq_refl eq_refl ltac:(lia)
              eq_refl ltac:(lia))
    as (st'&H1&H2&H3&_).
  exists st'. split; [exact H1|]. split; [exact H2|exact H3].
Defined.

(** ** The plan renderer on records the run never hands it *)

Lemma plan_entry_null (st : state) (field l1 k1 l2 k2 : string) :
  dict_lookup field (session_data st) = Some VNone ->
  plan_entry field l1 k1 l2 k2 st
  = Raise (Exc "AttributeError" "'NoneType' object has no attribute 'get'") st.
Proof.
  intros Hf. unfold plan_entry, bind, get_item, dict_get. now rewrite Hf.
Qed.

(** X11. The plan's placeholder does not cover a null field: when
    [llm_requirements] is present with value [None] (as the constructor
    leaves it), [generate_implementation_plan] prints its heading and the
    framework entry (the text [None] for a null framework) and then raises
    [AttributeError], since [get] returns the stored [None], not the default
    dictionary. *)
Theorem plan_null_field_raises (st : state) :
  sigint (console_of st) = None ->
  dict_lookup "llm_requirements" (session_data st) = Some VNone ->
  generate_implementation_plan st
  = Raise (Exc "AttributeError" "'NoneType' object has no attribute 'get'")
          (printed_state st
             (plan_head (py_str (dict_get "backend_framework" not_specified
                                          (session_data st))))).
Proof.
  intros Hq Hnull. unfold generate_implementation_plan.
  rewrite (bind_normal _ _ _ _ _ (lift_print_quiet _ st Hq)).
  rewrite (bind_normal _ _ _ _ _ (lift_print_quiet _ _ (printed_state_quiet _ _))).
  rewrite (bind_normal _ _ _ _ _ (lift_print_quiet _ _ (printed_state_quiet _ _))).
  rewrite !printed_printed.
  unfold bind at 1, get_item at 1.
  rewrite (bind_normal _ _ _ _ _ (lift_print_quiet _ _ (printed_state_quiet _ _))).
  rewrite !printed_printed.
  unfold bind at 1.
  match goal with
  | |- context [plan_entry ?f ?l1 ?k1 ?l2 ?k2 ?s] =>
      rewrite (plan_entry_null s f l1 k1 l2 k2 Hnull)
  end.
  reflexivity.
Qed.

Lemma plan_null_field_raises_witness :
  generate_implementation_plan (init [] None None)
  = Raise (Exc "AttributeError" "'NoneType' object has no attribute 'get'")
          (printed_state (init [] None None) (plan_head "None")).
Proof.
  apply (plan_null_field_raises (init [] None None) eq_refl eq_refl).
Defined.

Lemma plan_entry_absent (st : state) (field l1 k1 l2 k2 : string) :
  dict_lookup field (session_data st) = None ->
  sigint (console_of st) = None ->
  plan_entry field l1 k1 l2 k2 st
  = Normal tt (printed_state st [ l1 ++ "Not specified"; l2 ++ "Not specified" ]).
Proof.
  intros Hf Hq. unfold plan_entry.
  unfold bind at 1, get_item, dict_get. rewrite Hf.
  unfold bind at 1, attr_get, ret at 1, dict_get. cbn [dict_lookup not_specified py_str].
  rewrite (bind_normal _ _ _ _ _ (lift_print_quiet _ st Hq)).
  unfold bind at 1, ret at 1. cbn [py_str].
  rewrite lift_print_quiet by reflexivity. now rewrite printed_printed.
Qed.

Lemma next_steps_absent (st : state) :
  dict_lookup "backend_framework" (session_data st) = None ->
  sigint (console_of st) = None ->
  generate_next_steps st
  = Normal tt (printed_state st (next_steps_lines EmptyString)).
Proof.
  intros Hfw Hq. unfold generate_next_steps, next_steps_lines.
  rewrite (bind_normal _ _ _ _ _ (lift_print_quiet _ st Hq)).
  unfold bind at 1, get_item, dict_get.
  cbn [session_data printed_state with_console]. rewrite Hfw.
  cbn [py_in contains prefix]. unfold bind, ret.
  rewrite lift_print_all_quiet by reflexivity.
  change (State (session_data st) ?c (disk st) (write_error st))
    with (with_console st c).
  unfold printed_state, with_console. cbn [console_of session_data disk write_error].
  rewrite wrote_wrote. reflexivity.
Qed.

Ltac plan_step_absent H :=
  match goal with
  | |- bind (plan_entry ?f ?l1 ?k1 ?l2 ?k2) _ ?s = _ =>
      rewrite (bind_normal _ _ _ _ _
                 (plan_entry_absent s f l1 k1 l2 k2
                    (H f ltac:(cbn; tauto)) (printed_state_quiet _ _)))
  end.

(** X12. The placeholder is printed for keys that are missing from the
    record: when [backend_framework] and the five nested fields are absent,
    the plan prints [Not specified] for each of its eleven values and then
    the generic next steps, and returns. *)
Theorem plan_missing_keys (st : state) :
  sigint (console_of st) = None ->
  (forall f, In f ("backend_framework" :: plan_fields) ->
             dict_lookup f (session_data st) = None) ->
  let ns := "Not specified" in
  generate_implementation_plan st
  = Normal tt (printed_state st
                 (plan_lines ns ns ns ns ns ns ns ns ns ns ns
                    ++ next_steps_lines EmptyString)%list).
Proof.
  intros Hq H ns. unfold generate_implementation_plan.
  rewrite (bind_normal _ _ _ _ _ (lift_print_quiet _ st Hq)).
  rewrite (bind_normal _ _ _ _ _ (lift_print_quiet _ _ (printed_state_quiet _ _))).
  rewrite (bind_normal _ _ _ _ _ (lift_print_quiet _ _ (printed_state_quiet _ _))).
  rewrite !printed_printed.
  unfold bind at 1, get_item at 1, dict_get at 1.
  cbn [session_data printed_state with_console].
  rewrite (H "backend_framework" ltac:(cbn; tauto)). cbn [not_specified py_str].
  change (State (session_data st) ?c (disk st) (write_error st))
    with (with_console st c).
  change (with_console st (wrote (console_of st) (map Print ?l)))
    with (printed_state st l).
  rewrite (bind_normal _ _ _ _ _ (lift_print_quiet _ _ (printed_state_quiet _ _))).
  rewrite !printed_printed.
  do 5 (plan_step_absent H; rewrite !printed_printed).
  rewrite (bind_normal _ _ _ _ _ (lift_print_quiet _ _ (printed_state_quiet _ _))).
  rewrite (bind_normal _ _ _ _ _ (lift_print_quiet _ _ (printed_state_quiet _ _))).
  rewrite !printed_printed.
  match goal with
  | |- generate_next_steps ?s = _ =>
      rewrite (next_steps_absent s (H "backend_framework" ltac:(cbn; tauto))
                                 (printed_state_quiet _ _))
  end.
  rewrite !printed_printed. reflexivity.
Qed.

Lemma plan_missing_keys_witness :
  generate_implementation_plan
    (State [ ("current_step", VInt 1) ] (Console [] [] None) None None)
  = Normal tt
      (printed_state
         (State [ ("current_step", VInt 1) ] (Console [] [] None) None None)
         (plan_lines "Not specified" "Not specified" "Not specified"
                     "Not specified" "Not specified" "Not specified"
                     "Not specified" "Not specified" "Not specified"
                     "Not specified" "Not specified"
            ++ next_steps_lines EmptyString)%list).
Proof.
  apply (plan_missing_keys
           (State [ ("current_step", VInt 1) ] (Console [] [] None) None None)
           eq_refl).
  intros f [<-|[<-|[<-|[<-|[<-|[<-|[]]]]]]]; reflexivity.
Defined.

(** ** The next-steps renderer: the other branches *)

(** X13. The framework tests of [generate_next_steps] are tried in the
    order FastAPI, Flask, Node.js and only the first that matches prints:
    an answer without [FastAPI] that contains [Flask] gets the Flask lines
    (also when it contains [Node.js]); an answer with neither that contains
    [Node.js] gets the Node.js lines.  Both are followed by the generic
    lines. *)
Theorem next_steps_flask_node (st : state) (s : string) :
  dict_lookup "backend_framework" (session_data st) = Some (VStr s) ->
  sigint (console_of st) = None ->
  contains "FastAPI" s = false ->
  (contains "Flask" s = true ->
   generate_next_steps st
   = Normal tt (printed_state st
                  ((nl ++ "🚀 NEXT STEPS:")%string
                     :: flask_lines ++ generic_next_lines)%list))
  /\ (contains "Flask" s = false -> contains "Node.js" s = true ->
      generate_next_steps st
      = Normal tt (printed_state st
                     ((nl ++ "🚀 NEXT STEPS:")%string
                        :: nodejs_lines ++ generic_next_lines)%list)).
Proof.
  intros Hfw Hq Hfast. rewrite (next_steps_quiet st s Hfw Hq).
  unfold next_steps_lines. rewrite Hfast. split.
  - intros ->. reflexivity.
  - intros -> ->. reflexivity.
Qed.

Lemma next_steps_flask_node_witness :
  generate_next_steps
    (State (dict_set "backend_framework" (VStr "Flask behind a Node.js proxy")
                     init_session_data)
           (Console [] [] None) None None)
  = Normal tt
      (printed_state
         (State (dict_set "backend_framework" (VStr "Flask behind a Node.js proxy")
                          init_session_data)
                (Console [] [] None) None None)
         ((nl ++ "🚀 NEXT STEPS:")%string :: flask_lines ++ generic_next_lines)%list).
Proof.
  apply (proj1 (next_steps_flask_node
                  (State (dict_set "backend_framework"
                            (VStr "Flask behind a Node.js proxy") init_session_data)
                         (Console [] [] None) None None)
                  "Flask behind a Node.js proxy" eq_refl eq_refl
                  ltac:(vm_compute; reflexivity))).
  vm_compute. reflexivity.
Defined.

(** X14. [generate_next_steps] applies the substring test to whatever the
    record holds: with a null [backend_framework] (the constructor's value)
    it prints the heading and raises [TypeError]; the empty-string default
    only serves a missing key, for which the heading and the generic lines
    are printed. *)
Theorem next_steps_null_framework (st : state) :
  sigint (console_of st) = None ->
  (dict_lookup "backend_framework" (session_data st) = Some VNone ->
   exists msg,
     generate_next_steps st
     = Raise (Exc "TypeError" msg)
             (printed_state st [ (nl ++ "🚀 NEXT STEPS:")%string ]))
  /\ (dict_lookup "backend_framework" (session_data st) = None ->
      generate_next_steps st
      = Normal tt (printed_state st
                     ((nl ++ "🚀 NEXT STEPS:")%string :: generic_next_lines))).
Proof.
  intros Hq. split.
  - intros Hnull. unfold generate_next_steps.
    rewrite (bind_normal _ _ _ _ _ (lift_print_quiet _ st Hq)).
    unfold bind at 1, get_item, dict_get.
    cbn [session_data printed_state with_console]. rewrite Hnull.
    eexists. reflexivity.
  - intros Habs. rewrite (next_steps_absent st Habs Hq). reflexivity.
Qed.

Lemma next_steps_null_framework_witness :
  exists msg,
    generate_next_steps (init [] None None)
    = Raise (Exc "TypeError" msg)
            (printed_state (init [] None None) [ (nl ++ "🚀 NEXT STEPS:")%string ]).
Proof.
  apply (proj1 (next_steps_null_framework (init [] None None) eq_refl)).
  reflexivity.
Defined.
